(** * fscrypt, cmd/fscrypt/errors.go: error values, suggestions and usage errors

    A shallow embedding of the top-level error handling of the fscrypt
    command: the package-level error values, [getErrorSuggestions],
    [newExitError], the [usageError] type with its [ExitCode] method, and
    [checkRequiredFlags].

    Go values are modelled as follows.
    - A pointer is an address ([ptr], a natural number); two pointers are
      equal when their addresses are.
    - An [error] is a non-nil interface value: its constructor is the dynamic
      type, and [go_eq] is Go's [==] on interface values.
    - Code that allocates runs in a state monad over the next free address
      ([Alloc]); code that reads or writes objects shared through pointers
      runs in a state-and-panic monad over the store ([M]). *)

From Stdlib Require Import Ascii String ZArith NArith Lia.
From stdpp Require Import base option list gmap strings pretty.

Open Scope string_scope.
Open Scope Z_scope.

(** ** Characters that a string literal here does not hold *)

Definition dq : string := String "034"%char EmptyString.   (* the double quote *)
Definition nl : string := String "010"%char EmptyString.   (* line feed *)
Definition tab : string := String "009"%char EmptyString.  (* horizontal tab *)

(** The line break inside the raw (back-quoted) literals of
    [getErrorSuggestions]: a line feed followed by the three tabs that indent
    the continuation line in errors.go. *)
Definition br : string := nl +:+ tab +:+ tab +:+ tab.

(** ** Package fmt: Sprintf with the verbs %s, %d, %v and %% *)

Module fmt.

Inductive arg : Type :=
  | ArgString (s : string)
  | ArgInt (z : Z).

Definition operand (a : arg) : string :=
  match a with
  | ArgString s => s
  | ArgInt z => pretty z
  end.

Definition typed (a : arg) : string :=
  match a with
  | ArgString s => "string=" +:+ s
  | ArgInt z => "int=" +:+ pretty z
  end.

(** One verb applied to one operand.  A verb that does not fit the operand's
    type prints Go's [%!verb(type=value)]. *)
Definition verb (v : ascii) (a : arg) : string :=
  match v, a with
  | "s"%char, ArgString s => s
  | "d"%char, ArgInt z => pretty z
  | "v"%char, _ => operand a
  | _, _ => "%!" +:+ String v ("(" +:+ typed a +:+ ")")
  end.

Fixpoint extra (args : list arg) : string :=
  match args with
  | [] => EmptyString
  | [a] => typed a
  | a :: args' => typed a +:+ ", " +:+ extra args'
  end.

(** Width, precision and flags are not modelled: errors.go uses none. *)
Fixpoint Sprintf (format : string) (args : list arg) : string :=
  match format with
  | EmptyString =>
      match args with
      | [] => EmptyString
      | _ => "%!(EXTRA " +:+ extra args +:+ ")"
      end
  | String "%"%char EmptyString => "%!(NOVERB)"
  | String "%"%char (String v rest) =>
      if Ascii.eqb v "%"%char then String "%"%char (Sprintf rest args)
      else match args with
           | [] => "%!" +:+ String v ("(MISSING)" +:+ Sprintf rest [])
           | a :: args' => verb v a +:+ Sprintf rest args'
           end
  | String c rest => String c (Sprintf rest args)
  end.

End fmt.

(** ** Error values *)

Definition ptr := N.

(** The dynamic types of error values that reach this file.
    - [fundamental]: [*errors.fundamental], made by [errors.New] and
      [errors.Errorf] of github.com/pkg/errors; [p] is the pointer.
    - [withStack], [withMessage]: the wrappers of the same package; both
      have a [Cause] method.
    - [SystemError]: [util.SystemError], a string type, compared by value.
    - [opaque]: a value of any other comparable error type [typ], without a
      [Cause] method; [id] stands for the value (for a pointer type, its
      address). *)
Inductive error : Type :=
  | fundamental (p : ptr) (msg : string)
  | withStack (p : ptr) (cause : error)
  | withMessage (p : ptr) (cause : error) (msg : string)
  | SystemError (s : string)
  | opaque (typ : string) (id : N) (msg : string).

(** Go's [==] on two non-nil interface values holding errors: the dynamic
    types are identical and the values are equal; pointers are equal when
    they point to the same object. *)
Definition go_eq (a b : error) : bool :=
  match a, b with
  | fundamental p _, fundamental q _ => N.eqb p q
  | withStack p _, withStack q _ => N.eqb p q
  | withMessage p _ _, withMessage q _ _ => N.eqb p q
  | SystemError s, SystemError t => String.eqb s t
  | opaque ty i _, opaque ty' j _ => String.eqb ty ty' && N.eqb i j
  | _, _ => false
  end.

(** Allocation: a computation that takes the next free address and returns
    the one after the objects it made. *)
Definition Alloc (A : Type) : Type := ptr -> A * ptr.

#[global] Instance Alloc_ret : MRet Alloc := fun A x p => (x, p).
#[global] Instance Alloc_bind : MBind Alloc :=
  fun A B f m p => let '(x, p') := m p in f x p'.

Definition new : Alloc ptr := fun p => (p, N.succ p).

Module errors.

(** [errors.New(message)]: a pointer to a fresh [fundamental]. *)
Definition New (message : string) : Alloc error :=
  p ← new; mret (fundamental p message).

(** [errors.Errorf(format, args...)]. *)
Definition Errorf (format : string) (args : list fmt.arg) : Alloc error :=
  p ← new; mret (fundamental p (fmt.Sprintf format args)).

(** [errors.Wrap(err, message)] for a non-nil [err]: a [withMessage] inside
    a [withStack]. *)
Definition Wrap (err : error) (message : string) : Alloc error :=
  p ← new; q ← new; mret (withStack q (withMessage p err message)).

(** [errors.Cause(err)]: follow [Cause()] while the value has that method. *)
Fixpoint Cause (err : error) : error :=
  match err with
  | withStack _ cause => Cause cause
  | withMessage _ cause _ => Cause cause
  | _ => err
  end.

End errors.

(** ** Package cli (github.com/urfave/cli): the parts errors.go touches *)

Module cli.

Module Command.
Record t : Type := mk {
  Name : string;
  HelpName : string;
  Usage : string
}.
End Command.

(** [Writer] and [ErrWriter] are [io.Writer] values, modelled by the address
    of the stream they write to. *)
Module App.
Record t : Type := mk {
  Name : string;
  HelpName : string;
  Usage : string;
  Version : string;
  Commands : list Command.t;
  Writer : ptr;
  ErrWriter : ptr
}.

Definition set_Writer (w : ptr) (a : t) : t :=
  mk (Name a) (HelpName a) (Usage a) (Version a) (Commands a) w (ErrWriter a).
End App.

(** [App] is a pointer ([*cli.App]): every context of a run shares one
    application object.  [Command] is a struct held by value. *)
Module Context.
Record t : Type := mk {
  App : ptr;
  Command : Command.t
}.
End Context.

(** [*cli.ExitError], by the contents of the struct it points to. *)
Module ExitError.
Record t : Type := mk {
  exitCode : Z;
  message : string
}.

Definition Error (ee : t) : string := message ee.
Definition ExitCode (ee : t) : Z := exitCode ee.
End ExitError.

Definition NewExitError (message : string) (exitCode : Z) : ExitError.t :=
  ExitError.mk exitCode message.

End cli.

(** ** The store and the monad of code that uses it *)

(** [apps]: the [cli.App] objects, by address.  [streams]: what each
    [io.Writer] has been sent so far and, for a [bytes.Buffer], the bytes it
    holds unread. *)
Record store : Type := mkStore {
  apps : gmap ptr cli.App.t;
  streams : gmap ptr string
}.

(** [None] is a run-time panic (a nil or dangling pointer, an index out of
    range). *)
Definition M (A : Type) : Type := store -> option (A * store).

#[global] Instance M_ret : MRet M := fun A x s => Some (x, s).
#[global] Instance M_bind : MBind M :=
  fun A B f m s => match m s with Some (x, s') => f x s' | None => None end.

Definition panic {A : Type} : M A := fun _ => None.

Definition load_app (p : ptr) : M cli.App.t :=
  fun s => match apps s !! p with Some a => Some (a, s) | None => None end.

Definition store_app (p : ptr) (a : cli.App.t) : M unit :=
  fun s => match apps s !! p with
           | Some _ => Some (tt, mkStore (<[p := a]> (apps s)) (streams s))
           | None => None
           end.

(** [w.Write(text)]. *)
Definition write (w : ptr) (text : string) : M unit :=
  fun s => match streams s !! w with
           | Some sent => Some (tt, mkStore (apps s) (<[w := sent +:+ text]> (streams s)))
           | None => None
           end.

(** Package bytes: a [*bytes.Buffer] is the address of a stream. *)
Module bytes.

(** [new(bytes.Buffer)]: an empty buffer at an address not in use. *)
Definition new_Buffer : M ptr :=
  fun s => let b := fresh (dom (streams s)) in
           Some (b, mkStore (apps s) (<[b := EmptyString]> (streams s))).

(** The bytes of [s] up to and including the first [delim], and the rest;
    all of [s] and nothing when [delim] does not occur. *)
Fixpoint cut (delim : ascii) (s : string) : string * string :=
  match s with
  | EmptyString => (EmptyString, EmptyString)
  | String c rest =>
      if Ascii.eqb c delim then (String c EmptyString, rest)
      else let '(line, tail) := cut delim rest in (String c line, tail)
  end.

(** [b.ReadBytes(delim)]: the result (the error apart), consumed from [b]. *)
Definition ReadBytes (b : ptr) (delim : ascii) : M string :=
  fun s => match streams s !! b with
           | Some held =>
               let '(line, tail) := cut delim held in
               Some (line, mkStore (apps s) (<[b := tail]> (streams s)))
           | None => None
           end.

(** What [b] holds unread. *)
Definition held (b : ptr) : M string :=
  fun s => match streams s !! b with Some h => Some (h, s) | None => None end.

(** [b.Reset()]. *)
Definition Reset (b : ptr) : M unit :=
  fun s => match streams s !! b with
           | Some _ => Some (tt, mkStore (apps s) (<[b := EmptyString]> (streams s)))
           | None => None
           end.

(** [b.WriteTo(w)]: one [Write] of what [b] holds, none when it is empty;
    [b] is empty afterwards. *)
Definition WriteTo (b : ptr) (w : ptr) : M unit :=
  h ← held b;
  _ ← (if String.eqb h EmptyString then mret tt else write w h);
  Reset b.

End bytes.

(** ** What errors.go takes from the rest of the program

    errors.go is one file of package main; the other files of the package
    and the packages it imports are outside this development.  What it uses
    of them is gathered here, and every definition below is stated for an
    arbitrary such environment. *)
Class Env : Type := {
  (* package metadata *)
  metadata_PolicyKeyLen : Z;
  metadata_ErrEncryptionNotSupported : error;
  metadata_ErrEncryptionNotEnabled : error;
  (* package filesystem *)
  filesystem_ErrNotSetup : error;
  (* package actions *)
  actions_ErrBadConfigFile : error;
  actions_ErrNoConfigFile : error;
  actions_ErrMissingPolicyMetadata : error;
  actions_ErrPolicyMetadataMismatch : error;
  actions_ErrMissingProtectorName : error;
  (* package util: the Error method of util.SystemError *)
  util_SystemError_Error : string -> string;
  (* flags.go: the flag values, the argument of shortDisplay, and the
     conversion of a *stringFlag to it *)
  flag : Type;
  shortDisplay : flag -> string;
  stringFlag : Type;
  Value : stringFlag -> string;
  stringFlag_flag : stringFlag -> flag;
  nameFlag : flag;
  forceFlag : flag;
  protectorFlag : flag;
  keyFileFlag : flag;
  verboseFlag : flag;
  (* what %s prints for mountpointArg *)
  mountpointArg : string;
  (* format.go *)
  wrapText : string -> Z -> string;
  (* the standard library and the process *)
  utf8_RuneCountInString : string -> Z;
  filepath_Base : string -> string;
  os_Args : list string;
  (* the text cli.ShowAppHelp and cli.ShowCommandHelp render *)
  cli_AppHelp : cli.App.t -> string;
  cli_CommandHelp : cli.App.t -> string -> string;
  (* the next free address when the variables of package main are
     initialised, after those of every imported package *)
  heap0 : ptr
}.

(** ** errors.go *)

Section ErrorsGo.
Context {E : Env}.

(** [err.Error()]. *)
Fixpoint Error (err : error) : string :=
  match err with
  | fundamental _ msg => msg
  | withStack _ cause => Error cause
  | withMessage _ cause msg => msg +:+ ": " +:+ Error cause
  | SystemError s => util_SystemError_Error s
  | opaque _ _ msg => msg
  end.

(** failureExitCode is the value fscrypt will return on failure. *)
Definition failureExitCode : Z := 1.

(** The package-level variables of errors.go. *)
Record vars : Type := mkVars {
  ErrCanceled : error;
  ErrNoDesctructiveOps : error;
  ErrMaxPassphrase : error;
  ErrInvalidSource : error;
  ErrPassphraseMismatch : error;
  ErrSpecifyProtector : error;
  ErrWrongKey : error;
  ErrSpecifyKeyFile : error;
  ErrKeyFileLength : error;
  ErrAllLoadsFailed : error;
  ErrMustBeRoot : error;
  ErrPolicyUnlocked : error;
  ErrBadOwners : error;
  ErrNotEmptyDir : error;
  ErrNotPassphrase : error;
  ErrUnknownUser : error;
  loadHelpText : string
}.

(** Their initialisation, in the order of the two [var] declarations. *)
Definition init : Alloc vars :=
  canceled ← errors.New "operation canceled";
  noDesctructiveOps ← errors.New "operation would be destructive";
  maxPassphrase ← mret (SystemError "max passphrase length exceeded");
  invalidSource ← errors.New "invalid source type";
  passphraseMismatch ← errors.New "entered passphrases do not match";
  specifyProtector ← errors.New "multiple protectors available";
  wrongKey ← errors.New "incorrect key provided";
  specifyKeyFile ← errors.New "no key file specified";
  keyFileLength ← errors.Errorf "key file must be %d bytes" [fmt.ArgInt metadata_PolicyKeyLen];
  allLoadsFailed ← errors.New "could not load any protectors";
  mustBeRoot ← errors.New "this command must be run as root";
  policyUnlocked ← errors.New "this file or directory is already unlocked";
  badOwners ← errors.New "you do not own this directory";
  notEmptyDir ← errors.New "not an empty directory";
  notPassphrase ← errors.New "protector does not use a passphrase";
  unknownUser ← errors.New "unknown user";
  mret (mkVars canceled noDesctructiveOps maxPassphrase invalidSource
          passphraseMismatch specifyProtector wrongKey specifyKeyFile
          keyFileLength allLoadsFailed mustBeRoot policyUnlocked badOwners
          notEmptyDir notPassphrase unknownUser
          (fmt.Sprintf "You may need to mount a linked filesystem. Run with %s for more information."
             [fmt.ArgString (shortDisplay verboseFlag)])).

(** Package main once initialised: [main.(ErrWrongKey)] is the variable
    [ErrWrongKey]. *)
Definition main : vars := fst (init heap0).

(** The error values of the [var] block, in declaration order. *)
Definition topLevelErrors : list error :=
  [ main.(ErrCanceled); main.(ErrNoDesctructiveOps); main.(ErrMaxPassphrase);
    main.(ErrInvalidSource); main.(ErrPassphraseMismatch);
    main.(ErrSpecifyProtector); main.(ErrWrongKey); main.(ErrSpecifyKeyFile);
    main.(ErrKeyFileLength); main.(ErrAllLoadsFailed); main.(ErrMustBeRoot);
    main.(ErrPolicyUnlocked); main.(ErrBadOwners); main.(ErrNotEmptyDir);
    main.(ErrNotPassphrase); main.(ErrUnknownUser) ].

(** getFullName returns the full name of the application or command being
    used. *)
Definition getFullName (c : cli.Context.t) : M string :=
  if negb (String.eqb (cli.Command.HelpName (cli.Context.Command c)) EmptyString)
  then mret (cli.Command.HelpName (cli.Context.Command c))
  else app ← load_app (cli.Context.App c); mret (cli.App.HelpName app).

(** getErrorSuggestions returns a string containing suggestions about how to
    fix an error.  If no suggestion is necessary or available, return empty
    string.  The [switch] compares the cause with each case in turn. *)
Definition getErrorSuggestions (err : error) : string :=
  let cause := errors.Cause err in
  if go_eq cause filesystem_ErrNotSetup then
    fmt.Sprintf ("Run " +:+ dq +:+ "fscrypt setup %s" +:+ dq +:+ " to use fscrypt on this filesystem.")
      [fmt.ArgString mountpointArg]
  else if go_eq cause metadata_ErrEncryptionNotSupported then
    "Encryption for this type of filesystem is not supported" +:+ br +:+
    "on this kernel version."
  else if go_eq cause metadata_ErrEncryptionNotEnabled then
    "Encryption is either disabled in the kernel config, or" +:+ br +:+
    "needs to be enabled for this filesystem. See the" +:+ br +:+
    "documentation on how to enable encryption on ext4" +:+ br +:+
    "systems (and the risks of doing so)."
  else if go_eq cause actions_ErrBadConfigFile then
    "Run " +:+ dq +:+ "sudo fscrypt setup" +:+ dq +:+ " to recreate the file."
  else if go_eq cause actions_ErrNoConfigFile then
    "Run " +:+ dq +:+ "sudo fscrypt setup" +:+ dq +:+ " to create the file."
  else if go_eq cause actions_ErrMissingPolicyMetadata then
    "This file or directory has either been encrypted with" +:+ br +:+
    "another tool (such as e4crypt) or the corresponding" +:+ br +:+
    "filesystem metadata has been deleted."
  else if go_eq cause actions_ErrPolicyMetadataMismatch then
    "The metadata for this encrypted directory is in an" +:+ br +:+
    "inconsistent state. This most likely means the filesystem" +:+ br +:+
    "metadata is corrupted."
  else if go_eq cause actions_ErrMissingProtectorName then
    fmt.Sprintf "Use %s to specify a protector name." [fmt.ArgString (shortDisplay nameFlag)]
  else if go_eq cause main.(ErrNoDesctructiveOps) then
    fmt.Sprintf "Use %s to automatically run destructive operations." [fmt.ArgString (shortDisplay forceFlag)]
  else if go_eq cause main.(ErrSpecifyProtector) then
    fmt.Sprintf "Use %s to specify a protector." [fmt.ArgString (shortDisplay protectorFlag)]
  else if go_eq cause main.(ErrSpecifyKeyFile) then
    fmt.Sprintf "Use %s to specify a key file." [fmt.ArgString (shortDisplay keyFileFlag)]
  else if go_eq cause main.(ErrBadOwners) then
    "Encryption can only be setup on directories you own," +:+ br +:+
    "even if you have write permission for the directory."
  else if go_eq cause main.(ErrNotEmptyDir) then
    "Encryption can only be setup on empty directories; files" +:+ br +:+
    "cannot be encrypted in-place. Instead, encrypt an empty" +:+ br +:+
    "directory, copy the files into that encrypted directory," +:+ br +:+
    "and securely delete the originals with " +:+ dq +:+ "shred" +:+ dq +:+ "."
  else if go_eq cause main.(ErrAllLoadsFailed) then
    main.(loadHelpText)
  else EmptyString.

(** newExitError creates a new error for a given context and normal error.
    The returned error prepends the name of the relevant command and will
    make fscrypt return a non-zero exit value. *)
Definition newExitError (c : cli.Context.t) (err : error) : M cli.ExitError.t :=
  name ← getFullName c;
  let fullNamePrefix := name +:+ ": " in
  let message := fullNamePrefix +:+ wrapText (Error err) (utf8_RuneCountInString fullNamePrefix) in
  let suggestion := getErrorSuggestions err in
  let message :=
    if negb (String.eqb suggestion EmptyString)
    then message +:+ nl +:+ nl +:+ wrapText suggestion 0
    else message in
  mret (cli.NewExitError message failureExitCode).

(** usageError implements cli.ExitCoder to will print the usage and the
    return a non-zero value. *)
Record usageError : Type := mkUsageError {
  c : cli.Context.t;
  message : string
}.

Definition usageError_Error (u : usageError) : M string :=
  name ← getFullName (c u);
  mret (fmt.Sprintf "%s: %s" [fmt.ArgString name; fmt.ArgString (message u)]).

(** [cli.ShowAppHelp(c)] and [cli.ShowCommandHelp(c, command)]: the help
    text goes to [c.App.Writer]; their results are not used. *)
Definition ShowAppHelp (c : cli.Context.t) : M unit :=
  app ← load_app (cli.Context.App c);
  write (cli.App.Writer app) (cli_AppHelp app).

Definition ShowCommandHelp (c : cli.Context.t) (command : string) : M unit :=
  app ← load_app (cli.Context.App c);
  write (cli.App.Writer app) (cli_CommandHelp app command).

(** [os.Args[0]]. *)
Definition os_Args_0 : M string :=
  match os_Args !! 0%nat with
  | Some a => mret a
  | None => panic
  end.

Definition usageError_ExitCode (u : usageError) : M Z :=
  (* Redirect help output to a buffer, so we can customize it. *)
  buf ← bytes.new_Buffer;
  app ← load_app (cli.Context.App (c u));
  let oldWriter := cli.App.Writer app in
  _ ← store_app (cli.Context.App (c u)) (cli.App.set_Writer buf app);
  (* Get the appropriate help *)
  name ← getFullName (c u);
  arg0 ← os_Args_0;
  _ ← (if String.eqb name (filepath_Base arg0)
       then ShowAppHelp (c u)
       else ShowCommandHelp (c u) (cli.Command.Name (cli.Context.Command (c u))));
  (* Remove first line from help and print it out *)
  _ ← bytes.ReadBytes buf "010"%char;
  _ ← bytes.WriteTo buf oldWriter;
  app' ← load_app (cli.Context.App (c u));
  _ ← store_app (cli.Context.App (c u)) (cli.App.set_Writer oldWriter app');
  mret failureExitCode.

(** onUsageError is a function handler for the application and each
    command. *)
Definition onUsageError (c : cli.Context.t) (err : error) : usageError :=
  mkUsageError c (Error err).

(** checkRequiredFlags makes sure that all of the specified string flags
    have been given nonempty values.  Returns a usage error on failure
    ([None] is Go's nil). *)
Fixpoint checkRequiredFlags (c : cli.Context.t) (flags : list stringFlag) : option usageError :=
  match flags with
  | [] => None
  | flag :: flags' =>
      if String.eqb (Value flag) EmptyString
      then Some (mkUsageError c
                   (fmt.Sprintf "required flag %s not provided"
                      [fmt.ArgString (shortDisplay (stringFlag_flag flag))]))
      else checkRequiredFlags c flags'
  end.

End ErrorsGo.

(** ** Well-formedness of an environment and of a store *)

Section WellFormed.
Context {E : Env}.

(** The object an error value points to (if its type is a pointer type of
    package errors) was allocated before address [h]. *)
Definition allocated_before (h : ptr) (e : error) : bool :=
  match e with
  | fundamental p _ | withStack p _ | withMessage p _ _ => N.ltb p h
  | SystemError _ | opaque _ _ _ => true
  end.

(** The imported error values errors.go compares with. *)
Definition imports : list error :=
  [ filesystem_ErrNotSetup; metadata_ErrEncryptionNotSupported;
    metadata_ErrEncryptionNotEnabled; actions_ErrBadConfigFile;
    actions_ErrNoConfigFile; actions_ErrMissingPolicyMetadata;
    actions_ErrPolicyMetadataMismatch; actions_ErrMissingProtectorName ].

(** Go initialises the variables of an imported package before those of the
    importing one: what the imported variables point to exists when
    package main starts allocating. *)
Definition imports_initialised : bool :=
  forallb (allocated_before heap0) imports.

(** The case expressions of the [switch] in [getErrorSuggestions], in
    order. *)
Definition cases : list error :=
  imports ++
  [ main.(ErrNoDesctructiveOps); main.(ErrSpecifyProtector);
    main.(ErrSpecifyKeyFile); main.(ErrBadOwners); main.(ErrNotEmptyDir);
    main.(ErrAllLoadsFailed) ].

(** A context whose application object is in the store and writes to a
    stream of the store, in a process that has a program name. *)
Definition usable (c : cli.Context.t) (s : store) : Prop :=
  (exists app sent,
      apps s !! cli.Context.App c = Some app /\
      streams s !! cli.App.Writer app = Some sent) /\
  os_Args <> [].

(** The name [getFullName] returns for a context whose application is
    [app]. *)
Definition fullName (c : cli.Context.t) (app : cli.App.t) : string :=
  if negb (String.eqb (cli.Command.HelpName (cli.Context.Command c)) EmptyString)
  then cli.Command.HelpName (cli.Context.Command c)
  else cli.App.HelpName app.

(** The help text [ExitCode] renders: the application is seen with its
    writer redirected to [buf]. *)
Definition helpText (c : cli.Context.t) (app : cli.App.t) (buf : ptr) (arg0 : string) : string :=
  if String.eqb (fullName c app) (filepath_Base arg0)
  then cli_AppHelp (cli.App.set_Writer buf app)
  else cli_CommandHelp (cli.App.set_Writer buf app) (cli.Command.Name (cli.Context.Command c)).

End WellFormed.

(** The words of a text, as [strings.Fields] splits it at white space (the
    ASCII white space characters; the literals of errors.go hold no other). *)
Definition is_space (a : ascii) : bool :=
  match a with
  | " "%char | "009"%char | "010"%char | "011"%char | "012"%char | "013"%char => true
  | _ => false
  end.

Fixpoint fields_go (word : string) (s : string) : list string :=
  match s with
  | EmptyString =>
      match word with EmptyString => [] | _ => [String.rev word] end
  | String a rest =>
      if is_space a
      then match word with
           | EmptyString => fields_go EmptyString rest
           | _ => String.rev word :: fields_go EmptyString rest
           end
      else fields_go (String a word) rest
  end.

Definition Fields (s : string) : list string := fields_go EmptyString s.

(** [sub] occurs in [l] as a run of consecutive elements. *)
Fixpoint has_run (sub l : list string) : bool :=
  match l with
  | [] => match sub with [] => true | _ => false end
  | _ :: l' => bool_decide (take (length sub) l = sub) || has_run sub l'
  end.

(** ** The destructiveness gate *)

Section Destroy.
Context {E : Env}.

(** A policy record, by its descriptor and the protector descriptors of its
    wrap entries; a metadata store, by the descriptors of its protector
    records and its policy records. *)
Record PolicyRecord : Type := mkPolicy {
  policy_descriptor : string;
  wrap_protectors : list string
}.

Record MetadataStore : Type := mkMetadata {
  protectors : list string;
  policies : list PolicyRecord
}.

Definition referenced (descriptor : string) (st : MetadataStore) : bool :=
  existsb (fun p => existsb (String.eqb descriptor) (wrap_protectors p)) (policies st).

(** Modelled from the spec: the protector operation [destroy] of section 4.4
    and its gate, whose code is outside errors.go.  In the spec's words,
    destroy requires that no policy still references the descriptor, else
    fails with the would-be-destructive condition, unless an explicit force
    override is given; destruction then proceeds.  The condition is the
    value [ErrNoDesctructiveOps] of errors.go. *)
Definition destroy (force : bool) (descriptor : string) (st : MetadataStore)
  : error + MetadataStore :=
  if referenced descriptor st && negb force
  then inl main.(ErrNoDesctructiveOps)
  else inr (mkMetadata
              (filter (fun d => d <> descriptor) (protectors st))
              (policies st)).

End Destroy.

(** ** An environment for the examples

    The values are in the style of the program; only the examples that
    instantiate a theorem use them. *)

Definition example_env_with (force : string) : Env := {|
  metadata_PolicyKeyLen := 64;
  metadata_ErrEncryptionNotSupported := fundamental 1%N "encryption not supported";
  metadata_ErrEncryptionNotEnabled := fundamental 2%N "encryption not enabled";
  filesystem_ErrNotSetup := fundamental 0%N "not setup for use with fscrypt";
  actions_ErrBadConfigFile := fundamental 3%N "bad config file";
  actions_ErrNoConfigFile := fundamental 4%N "no config file";
  actions_ErrMissingPolicyMetadata := fundamental 5%N "missing policy metadata";
  actions_ErrPolicyMetadataMismatch := fundamental 6%N "policy metadata mismatch";
  actions_ErrMissingProtectorName := fundamental 7%N "missing protector name";
  util_SystemError_Error := fun s => "system error: " +:+ s;
  flag := string;
  shortDisplay := fun f => "--" +:+ f;
  stringFlag := string * string;
  Value := snd;
  stringFlag_flag := fst;
  nameFlag := "name";
  forceFlag := force;
  protectorFlag := "protector";
  keyFileFlag := "key";
  verboseFlag := "verbose";
  mountpointArg := "MOUNTPOINT";
  wrapText := fun s _ => s;
  utf8_RuneCountInString := fun s => Z.of_nat (String.length s);
  filepath_Base := fun s => s;
  os_Args := ["fscrypt"];
  cli_AppHelp := fun a => "NAME:" +:+ nl +:+ "   " +:+ cli.App.Name a +:+ nl;
  cli_CommandHelp := fun a n => "NAME:" +:+ nl +:+ "   " +:+ cli.App.Name a +:+ " " +:+ n +:+ nl;
  heap0 := 8%N
|}.

Definition example_env : Env := example_env_with "force".

Definition example_app : cli.App.t :=
  cli.App.mk "fscrypt" "fscrypt" "manage linux filesystem encryption" "0.1" [] 1%N 2%N.

Definition example_store : store :=
  mkStore {[ 0%N := example_app ]} {[ 1%N := "fscrypt: bad usage" +:+ nl; 2%N := EmptyString ]}.

Definition example_context : cli.Context.t :=
  cli.Context.mk 0%N (cli.Command.mk "setup" "fscrypt setup" "setup a filesystem").

Definition example_metadata : MetadataStore :=
  mkMetadata ["p1"; "p2"] [mkPolicy "d2" ["p2"]].

(** ** The rest of errors.go *)

Section ExpectedArgs.
Context {E : Env}.

(** [pluralize] is a function of format.go; [NArg] is [c.NArg()], the number
    of positional arguments in the context's flag set, which [cli.Context.t]
    does not hold. *)
Variable pluralize : Z -> string -> string.
Variable NArg : cli.Context.t -> Z.

(** expectedArgsErr creates a usage error for the incorrect number of
    arguments being specified.  atMost should be true only if any number of
    arguments from 0 to expectedArgs would be acceptable. *)
Definition expectedArgsErr (c0 : cli.Context.t) (expectedArgs : Z) (atMost : bool)
  : usageError :=
  let message := "expected " in
  let message := if atMost then message +:+ "at most " else message in
  let message :=
    message +:+
    fmt.Sprintf "%s, got %s"
      [fmt.ArgString (pluralize expectedArgs "argument");
       fmt.ArgString (pluralize (NArg c0) "argument")] in
  mkUsageError c0 message.

End ExpectedArgs.

(** [errors.Wrap] applied once for each message of the list, the first
    message innermost: an error as it is handed up through callers that each
    add their context. *)
Fixpoint wrap_all (messages : list string) (err : error) : Alloc error :=
  match messages with
  | [] => mret err
  | m :: messages' => err' ← errors.Wrap err m; wrap_all messages' err'
  end.

(** No two values of a list are equal under [==]. *)
Fixpoint pairwise_distinct (l : list error) : bool :=
  match l with
  | [] => true
  | x :: l' => forallb (fun y => negb (go_eq x y)) l' && pairwise_distinct l'
  end.

(** [a] occurs in [s]. *)
Fixpoint occurs (a : ascii) (s : string) : bool :=
  match s with
  | EmptyString => false
  | String b rest => Ascii.eqb b a || occurs a rest
  end.

(** [s] starts with [p]. *)
Fixpoint starts_with (p s : string) : bool :=
  match p, s with
  | EmptyString, _ => true
  | String a p', String b s' => Ascii.eqb a b && starts_with p' s'
  | String _ _, EmptyString => false
  end.

(** * Properties *)

(** ** Equality of error values *)

Lemma go_eq_refl (e : error) : go_eq e e = true.
Proof.
  destruct e; simpl; rewrite ?N.eqb_refl, ?String.eqb_refl; reflexivity.
Qed.

Lemma go_eq_sym (a b : error) : go_eq a b = go_eq b a.
Proof.
  destruct a, b; simpl; try reflexivity;
    rewrite ?(N.eqb_sym p), ?(String.eqb_sym s), ?(String.eqb_sym typ), ?(N.eqb_sym id);
    reflexivity.
Qed.

(** Equal values compare alike with any third value. *)
Lemma go_eq_trans (a b x : error) :
  go_eq a b = true -> go_eq a x = go_eq b x.
Proof.
  destruct a, b; simpl; try discriminate; intros H.
  - apply N.eqb_eq in H. subst. reflexivity.
  - apply N.eqb_eq in H. subst. reflexivity.
  - apply N.eqb_eq in H. subst. reflexivity.
  - apply String.eqb_eq in H. subst. reflexivity.
  - apply andb_true_iff in H as [H1 H2].
    apply String.eqb_eq in H1. apply N.eqb_eq in H2. subst. reflexivity.
Qed.

Lemma Cause_idempotent (e : error) : errors.Cause (errors.Cause e) = errors.Cause e.
Proof. induction e; simpl; auto. Qed.

(** An object allocated at or after [h] is none of those allocated before. *)
Lemma fresh_not_earlier (h p : ptr) (msg : string) (x : error) :
  allocated_before h x = true -> (h <= p)%N ->
  go_eq (fundamental p msg) x = false.
Proof.
  destruct x; simpl; try reflexivity.
  intros Hlt Hle. apply N.ltb_lt in Hlt. apply N.eqb_neq. lia.
Qed.

(** ** The variables of package main *)

Section Initialisation.
Context {E : Env}.

Lemma imports_earlier (x : error) :
  imports_initialised = true -> In x imports -> allocated_before heap0 x = true.
Proof.
  unfold imports_initialised. rewrite forallb_forall. auto.
Qed.

(** The variables of package main after initialisation. *)
Lemma main_eq :
  main =
  mkVars
    (fundamental heap0 "operation canceled")
    (fundamental (heap0 + 1)%N "operation would be destructive")
    (SystemError "max passphrase length exceeded")
    (fundamental (heap0 + 2)%N "invalid source type")
    (fundamental (heap0 + 3)%N "entered passphrases do not match")
    (fundamental (heap0 + 4)%N "multiple protectors available")
    (fundamental (heap0 + 5)%N "incorrect key provided")
    (fundamental (heap0 + 6)%N "no key file specified")
    (fundamental (heap0 + 7)%N ("key file must be " +:+ pretty metadata_PolicyKeyLen +:+ " bytes"))
    (fundamental (heap0 + 8)%N "could not load any protectors")
    (fundamental (heap0 + 9)%N "this command must be run as root")
    (fundamental (heap0 + 10)%N "this file or directory is already unlocked")
    (fundamental (heap0 + 11)%N "you do not own this directory")
    (fundamental (heap0 + 12)%N "not an empty directory")
    (fundamental (heap0 + 13)%N "protector does not use a passphrase")
    (fundamental (heap0 + 14)%N "unknown user")
    ("You may need to mount a linked filesystem. Run with " +:+
     shortDisplay verboseFlag +:+ " for more information.").
Proof.
  cbv [main init errors.New errors.Errorf new mbind mret Alloc_bind Alloc_ret fst].
  f_equal; try (f_equal; lia); reflexivity.
Qed.

End Initialisation.

(** ** Running the code in a store *)

Section Running.
Context {E : Env}.

Lemma set_Writer_back (w : ptr) (a : cli.App.t) :
  cli.App.set_Writer (cli.App.Writer a) (cli.App.set_Writer w a) = a.
Proof. destruct a; reflexivity. Qed.

Lemma append_empty_r (s : string) : s +:+ EmptyString = s.
Proof.
  induction s as [|a s IH]; [reflexivity|].
  change (String a (s +:+ EmptyString) = String a s). f_equal. exact IH.
Qed.

Lemma getFullName_run (c : cli.Context.t) (s : store) (app : cli.App.t) :
  apps s !! cli.Context.App c = Some app ->
  getFullName c s = Some (fullName c app, s).
Proof.
  intros H. unfold getFullName, fullName.
  destruct (negb _); [reflexivity|].
  unfold mbind, M_bind, load_app. rewrite H. reflexivity.
Qed.

(** Running the steps of [M]. *)
Lemma bind_run {A B : Type} (m : M A) (f : A -> M B) (s s' : store) (x : A) :
  m s = Some (x, s') -> (m ≫= f) s = f x s'.
Proof. intros H. unfold mbind, M_bind. rewrite H. reflexivity. Qed.

Lemma load_app_run (p : ptr) (s : store) (a : cli.App.t) :
  apps s !! p = Some a -> load_app p s = Some (a, s).
Proof. intros H. unfold load_app. rewrite H. reflexivity. Qed.

Lemma store_app_run (p : ptr) (s : store) (a0 a : cli.App.t) :
  apps s !! p = Some a0 ->
  store_app p a s = Some (tt, mkStore (<[p := a]> (apps s)) (streams s)).
Proof. intros H. unfold store_app. rewrite H. reflexivity. Qed.

Lemma write_run (w : ptr) (text sent : string) (s : store) :
  streams s !! w = Some sent ->
  write w text s = Some (tt, mkStore (apps s) (<[w := sent +:+ text]> (streams s))).
Proof. intros H. unfold write. rewrite H. reflexivity. Qed.

Lemma ReadBytes_run (b : ptr) (delim : ascii) (h : string) (s : store) :
  streams s !! b = Some h ->
  bytes.ReadBytes b delim s =
  Some ((bytes.cut delim h).1, mkStore (apps s) (<[b := (bytes.cut delim h).2]> (streams s))).
Proof.
  intros H. unfold bytes.ReadBytes. rewrite H.
  destruct (bytes.cut delim h). reflexivity.
Qed.

(** [WriteTo] to a stream other than the buffer itself. *)
Lemma WriteTo_run (b w : ptr) (h sent : string) (s : store) :
  streams s !! b = Some h ->
  streams s !! w = Some sent ->
  b <> w ->
  bytes.WriteTo b w s =
  Some (tt, mkStore (apps s) (<[b := EmptyString]> (<[w := sent +:+ h]> (streams s)))).
Proof.
  intros Hb Hw Hne. unfold bytes.WriteTo.
  erewrite bind_run; [| unfold bytes.held; rewrite Hb; reflexivity].
  destruct (String.eqb_spec h EmptyString) as [->|Hh].
  - erewrite bind_run; [| reflexivity].
    unfold bytes.Reset. rewrite Hb. rewrite append_empty_r.
    rewrite (insert_id (streams s) w sent Hw). reflexivity.
  - erewrite bind_run; [| apply write_run; exact Hw].
    unfold bytes.Reset. cbn [streams apps].
    rewrite lookup_insert_ne by congruence. rewrite Hb. reflexivity.
Qed.

Lemma usageError_ExitCode_run (u : usageError) (s : store)
    (app : cli.App.t) (sent arg0 : string) (args : list string) :
  apps s !! cli.Context.App (c u) = Some app ->
  streams s !! cli.App.Writer app = Some sent ->
  os_Args = arg0 :: args ->
  let buf := fresh (dom (streams s)) in
  let rest := snd (bytes.cut "010"%char (helpText (c u) app buf arg0)) in
  exists s',
    usageError_ExitCode u s = Some (failureExitCode, s') /\
    apps s' = apps s /\
    streams s' !! cli.App.Writer app = Some (sent +:+ rest) /\
    streams s' !! buf = Some EmptyString /\
    (forall w, w <> buf -> w <> cli.App.Writer app -> streams s' !! w = streams s !! w).
Proof.
  intros Happ Hw Hargs buf rest.
  assert (Hfresh : streams s !! buf = None).
  { apply not_elem_of_dom. apply is_fresh. }
  assert (Hne : cli.App.Writer app <> buf).
  { intros Heq. rewrite Heq in Hw. congruence. }
  set (p := cli.Context.App (c u)) in *.
  set (app_r := cli.App.set_Writer buf app).
  eexists. split.
  { unfold usageError_ExitCode. fold p.
    erewrite bind_run; [| reflexivity]. fold buf.
    erewrite bind_run; [| apply load_app_run; exact Happ].
    erewrite bind_run; [| eapply store_app_run; exact Happ].
    fold app_r.
    assert (Happ_r : <[p := app_r]> (apps s) !! p = Some app_r)
      by apply lookup_insert_eq.
    erewrite bind_run; [| apply getFullName_run; exact Happ_r].
    erewrite bind_run; [| unfold os_Args_0; rewrite Hargs; reflexivity].
    erewrite (bind_run _ _ _
                (mkStore (<[p := app_r]> (apps s))
                   (<[buf := EmptyString +:+ helpText (c u) app buf arg0]>
                      (<[buf := EmptyString]> (streams s)))) tt).
    2:{ change (fullName (c u) app_r) with (fullName (c u) app).
        unfold helpText, ShowAppHelp, ShowCommandHelp. fold app_r. fold p.
        destruct (String.eqb (fullName (c u) app) (filepath_Base arg0));
          (erewrite bind_run; [| apply load_app_run; exact Happ_r]);
          (apply write_run; cbn [streams]; apply lookup_insert_eq). }
    cbn [cli.App.Writer app_r cli.App.set_Writer].
    erewrite bind_run; [| apply ReadBytes_run; cbn [streams]; apply lookup_insert_eq].
    erewrite bind_run.
    2:{ apply WriteTo_run with (sent := sent); cbn [streams].
        - apply lookup_insert_eq.
        - rewrite !lookup_insert_ne by congruence. exact Hw.
        - congruence. }
    erewrite bind_run; [| apply load_app_run; exact Happ_r].
    erewrite bind_run; [| eapply store_app_run; exact Happ_r].
    reflexivity. }
  cbn [apps streams].
  split; [| split; [| split]].
  - rewrite insert_insert_eq. subst app_r. rewrite set_Writer_back.
    apply insert_id. exact Happ.
  - rewrite lookup_insert_ne by congruence. rewrite lookup_insert_eq.
    reflexivity.
  - apply lookup_insert_eq.
  - intros w Hwb Hwo. rewrite !lookup_insert_ne by congruence. reflexivity.
Qed.

End Running.

(** ** What a returned result implies *)

Section Returning.
Context {E : Env}.

Lemma bind_inv {A B : Type} (m : M A) (f : A -> M B) (s : store) (r : B * store) :
  (m ≫= f) s = Some r -> exists x s1, m s = Some (x, s1) /\ f x s1 = Some r.
Proof.
  unfold mbind, M_bind. destruct (m s) as [[x s1]|]; [|discriminate].
  intros H. exists x, s1. split; [reflexivity | exact H].
Qed.

Lemma load_app_inv (p : ptr) (s s' : store) (a : cli.App.t) :
  load_app p s = Some (a, s') -> s' = s /\ apps s !! p = Some a.
Proof.
  unfold load_app. destruct (apps s !! p); [|discriminate].
  intros H. injection H as -> ->. split; reflexivity.
Qed.

Lemma store_app_inv (p : ptr) (a : cli.App.t) (s s' : store) (x : unit) :
  store_app p a s = Some (x, s') ->
  apps s' = <[p := a]> (apps s) /\ streams s' = streams s.
Proof.
  unfold store_app. destruct (apps s !! p); [|discriminate].
  intros H. injection H as _ <-. split; reflexivity.
Qed.

Lemma getFullName_inv (c0 : cli.Context.t) (s s' : store) (name : string) :
  getFullName c0 s = Some (name, s') -> s' = s.
Proof.
  unfold getFullName. destruct (negb _).
  - intros H. injection H as _ <-. reflexivity.
  - intros H. apply bind_inv in H as (a & s1 & H1 & H2).
    apply load_app_inv in H1 as [-> _]. injection H2 as _ <-. reflexivity.
Qed.

Lemma write_apps (w : ptr) (text : string) (s s' : store) (x : unit) :
  write w text s = Some (x, s') -> apps s' = apps s.
Proof.
  unfold write. destruct (streams s !! w); [|discriminate].
  intros H. injection H as _ <-. reflexivity.
Qed.

Lemma ReadBytes_apps (b : ptr) (delim : ascii) (s s' : store) (x : string) :
  bytes.ReadBytes b delim s = Some (x, s') -> apps s' = apps s.
Proof.
  unfold bytes.ReadBytes. destruct (streams s !! b); [|discriminate].
  destruct (bytes.cut delim s0). intros H. injection H as _ <-. reflexivity.
Qed.

Lemma WriteTo_apps (b w : ptr) (s s' : store) (x : unit) :
  bytes.WriteTo b w s = Some (x, s') -> apps s' = apps s.
Proof.
  unfold bytes.WriteTo. intros H.
  apply bind_inv in H as (h & s1 & H1 & H).
  apply bind_inv in H as (y & s2 & H2 & H).
  unfold bytes.held in H1. destruct (streams s !! b); [|discriminate].
  injection H1 as _ <-.
  assert (apps s2 = apps s) as <-.
  { destruct (String.eqb h EmptyString).
    - injection H2 as _ <-. reflexivity.
    - eapply write_apps. exact H2. }
  unfold bytes.Reset in H. destruct (streams s2 !! b); [|discriminate].
  injection H as _ <-. reflexivity.
Qed.

Lemma Show_apps (c0 : cli.Context.t) (text : cli.App.t -> string) (s s' : store) (x : unit) :
  (app ← load_app (cli.Context.App c0); write (cli.App.Writer app) (text app)) s = Some (x, s') ->
  apps s' = apps s.
Proof.
  intros H. apply bind_inv in H as (a & s1 & H1 & H).
  apply load_app_inv in H1 as [-> _]. eapply write_apps. exact H.
Qed.

(** Whenever [ExitCode] returns, it returns [failureExitCode] and every
    application object is as it was. *)
Lemma usageError_ExitCode_inv (u : usageError) (s s' : store) (z : Z) :
  usageError_ExitCode u s = Some (z, s') ->
  z = failureExitCode /\ apps s' = apps s.
Proof.
  unfold usageError_ExitCode. intros H.
  apply bind_inv in H as (buf & s1 & H1 & H).
  assert (Hs1 : apps s1 = apps s).
  { unfold bytes.new_Buffer in H1. injection H1 as _ <-. reflexivity. }
  apply bind_inv in H as (app & s2 & H2 & H).
  apply load_app_inv in H2 as [-> Happ].
  apply bind_inv in H as (x3 & s3 & H3 & H).
  apply store_app_inv in H3 as [Ha3 _].
  apply bind_inv in H as (name & s4 & H4 & H).
  apply getFullName_inv in H4 as ->.
  apply bind_inv in H as (arg0 & s5 & H5 & H).
  assert (s5 = s3) as ->.
  { unfold os_Args_0 in H5. destruct (os_Args !! 0%nat); [|discriminate].
    injection H5 as _ <-. reflexivity. }
  apply bind_inv in H as (x6 & s6 & H6 & H).
  assert (Ha6 : apps s6 = apps s3).
  { destruct (String.eqb name (filepath_Base arg0));
      [eapply (Show_apps _ cli_AppHelp) | eapply (Show_apps _ (fun a => cli_CommandHelp a _))];
      exact H6. }
  apply bind_inv in H as (x7 & s7 & H7 & H).
  apply ReadBytes_apps in H7.
  apply bind_inv in H as (x8 & s8 & H8 & H).
  apply WriteTo_apps in H8.
  apply bind_inv in H as (app' & s9 & H9 & H).
  apply load_app_inv in H9 as [-> Happ'].
  apply bind_inv in H as (x10 & s10 & H10 & H).
  apply store_app_inv in H10 as [Ha10 _].
  injection H as <- <-. split; [reflexivity|].
  rewrite Ha10. rewrite H8, H7, Ha6, Ha3 in Happ' |- *.
  rewrite lookup_insert_eq in Happ'. injection Happ' as <-.
  rewrite insert_insert_eq, set_Writer_back, Hs1.
  apply insert_id. rewrite <- Hs1. exact Happ.
Qed.

Lemma newExitError_inv (c0 : cli.Context.t) (err : error) (s s' : store) (ee : cli.ExitError.t) :
  newExitError c0 err s = Some (ee, s') ->
  cli.ExitError.ExitCode ee = failureExitCode /\ s' = s.
Proof.
  unfold newExitError. intros H.
  apply bind_inv in H as (name & s1 & H1 & H).
  apply getFullName_inv in H1 as ->.
  injection H as <- <-. split; reflexivity.
Qed.

Lemma newExitError_run (c0 : cli.Context.t) (err : error) (s : store) (app : cli.App.t) :
  apps s !! cli.Context.App c0 = Some app ->
  exists ee, newExitError c0 err s = Some (ee, s) /\
             cli.ExitError.ExitCode ee = failureExitCode.
Proof.
  intros Happ. unfold newExitError.
  erewrite bind_run; [| apply getFullName_run; exact Happ].
  eexists. split; reflexivity.
Qed.

End Returning.

(** ** The switch of getErrorSuggestions *)

Section Suggestions.
Context {E : Env}.

Lemma suggestions_go_eq (e1 e2 : error) :
  go_eq (errors.Cause e1) (errors.Cause e2) = true ->
  getErrorSuggestions e1 = getErrorSuggestions e2.
Proof.
  intros H. unfold getErrorSuggestions. cbv zeta.
  rewrite !(go_eq_trans _ _ _ H). reflexivity.
Qed.

Lemma local_vs_import (k : N) (msg : string) (x : error) :
  imports_initialised = true -> In x imports ->
  go_eq (fundamental (heap0 + k)%N msg) x = false.
Proof.
  intros Hi Hx. apply fresh_not_earlier with (h := heap0).
  - apply imports_earlier; assumption.
  - lia.
Qed.

Lemma addr_neq (i j : N) : i <> j -> N.eqb (heap0 + i) (heap0 + j) = false.
Proof. intros H. apply N.eqb_neq. lia. Qed.

End Suggestions.

(** Evaluate the [switch] at a variable of package main. *)
Ltac switch_at_local Hi :=
  unfold getErrorSuggestions; rewrite main_eq;
  cbn [errors.Cause ErrNoDesctructiveOps ErrSpecifyProtector ErrSpecifyKeyFile
       ErrBadOwners ErrNotEmptyDir ErrAllLoadsFailed ErrWrongKey loadHelpText];
  rewrite !(fun k m x H => local_vs_import k m x Hi H)
    by (unfold imports; simpl; tauto);
  cbn [go_eq];
  rewrite ?addr_neq by lia;
  rewrite ?N.eqb_refl;
  reflexivity.

Section SuggestionsOfMain.
Context {E : Env}.
Hypothesis Hi : imports_initialised = true.

Lemma suggestion_ErrNoDesctructiveOps :
  getErrorSuggestions main.(ErrNoDesctructiveOps) =
  "Use " +:+ shortDisplay forceFlag +:+ " to automatically run destructive operations.".
Proof. switch_at_local Hi. Qed.

Lemma suggestion_ErrAllLoadsFailed :
  getErrorSuggestions main.(ErrAllLoadsFailed) =
  "You may need to mount a linked filesystem. Run with " +:+
  shortDisplay verboseFlag +:+ " for more information.".
Proof. switch_at_local Hi. Qed.

Lemma suggestion_ErrWrongKey :
  getErrorSuggestions main.(ErrWrongKey) = EmptyString.
Proof. switch_at_local Hi. Qed.

Lemma suggestion_ErrNotEmptyDir :
  getErrorSuggestions main.(ErrNotEmptyDir) =
  "Encryption can only be setup on empty directories; files" +:+ br +:+
  "cannot be encrypted in-place. Instead, encrypt an empty" +:+ br +:+
  "directory, copy the files into that encrypted directory," +:+ br +:+
  "and securely delete the originals with " +:+ dq +:+ "shred" +:+ dq +:+ ".".
Proof. switch_at_local Hi. Qed.

End SuggestionsOfMain.

(** ** The top-level error values are pairwise distinct *)

Section Distinct.
Context {E : Env}.

Lemma topLevelErrors_eq :
  topLevelErrors =
  [ fundamental heap0 "operation canceled";
    fundamental (heap0 + 1)%N "operation would be destructive";
    SystemError "max passphrase length exceeded";
    fundamental (heap0 + 2)%N "invalid source type";
    fundamental (heap0 + 3)%N "entered passphrases do not match";
    fundamental (heap0 + 4)%N "multiple protectors available";
    fundamental (heap0 + 5)%N "incorrect key provided";
    fundamental (heap0 + 6)%N "no key file specified";
    fundamental (heap0 + 7)%N ("key file must be " +:+ pretty metadata_PolicyKeyLen +:+ " bytes");
    fundamental (heap0 + 8)%N "could not load any protectors";
    fundamental (heap0 + 9)%N "this command must be run as root";
    fundamental (heap0 + 10)%N "this file or directory is already unlocked";
    fundamental (heap0 + 11)%N "you do not own this directory";
    fundamental (heap0 + 12)%N "not an empty directory";
    fundamental (heap0 + 13)%N "protector does not use a passphrase";
    fundamental (heap0 + 14)%N "unknown user" ].
Proof. unfold topLevelErrors. rewrite main_eq. reflexivity. Qed.

Lemma topLevelErrors_distinct (i j : nat) (e1 e2 : error) :
  topLevelErrors !! i = Some e1 -> topLevelErrors !! j = Some e2 ->
  i <> j -> go_eq e1 e2 = false.
Proof.
  rewrite topLevelErrors_eq. intros H1 H2 Hne.
  do 16 (try (destruct i as [|i]; [injection H1 as <- | simpl in H1]));
    try discriminate H1;
    do 16 (try (destruct j as [|j]; [injection H2 as <- | simpl in H2]));
    try discriminate H2;
    try (exfalso; apply Hne; reflexivity);
  cbn [go_eq]; try reflexivity; apply N.eqb_neq; lia.
Qed.

End Distinct.

(** * The specified properties *)

(** C7.  Each user-input error the spec names has a value of its own in the
    [var] block: [ErrInvalidSource], [ErrPassphraseMismatch],
    [ErrSpecifyProtector] and [ErrSpecifyKeyFile] are the entries 3, 4, 5
    and 7 of the block, each with its own message, and any two different
    entries of the block are different values under Go's [==]. *)
Theorem user_input_errors_are_dedicated {E : Env} :
  (topLevelErrors !! 3%nat = Some main.(ErrInvalidSource) /\
   topLevelErrors !! 4%nat = Some main.(ErrPassphraseMismatch) /\
   topLevelErrors !! 5%nat = Some main.(ErrSpecifyProtector) /\
   topLevelErrors !! 7%nat = Some main.(ErrSpecifyKeyFile)) /\
  (Error main.(ErrInvalidSource) = "invalid source type" /\
   Error main.(ErrPassphraseMismatch) = "entered passphrases do not match" /\
   Error main.(ErrSpecifyProtector) = "multiple protectors available" /\
   Error main.(ErrSpecifyKeyFile) = "no key file specified") /\
  (forall (i j : nat) (e1 e2 : error),
      topLevelErrors !! i = Some e1 -> topLevelErrors !! j = Some e2 ->
      i <> j -> go_eq e1 e2 = false).
Proof.
  split; [| split].
  - split; [| split; [| split]]; reflexivity.
  - rewrite main_eq. split; [| split; [| split]]; reflexivity.
  - apply topLevelErrors_distinct.
Qed.

Lemma user_input_errors_are_dedicated_witness :
  (@topLevelErrors example_env !! 3%nat = Some (@main example_env).(ErrInvalidSource) /\
   @topLevelErrors example_env !! 6%nat = Some (@main example_env).(ErrWrongKey) /\
   3%nat <> 6%nat) /\
  go_eq (@main example_env).(ErrInvalidSource) (@main example_env).(ErrWrongKey) = false.
Proof.
  split.
  - split; [reflexivity | split; [reflexivity | lia]].
  - apply (proj2 (proj2 (@user_input_errors_are_dedicated example_env)) 3%nat 6%nat);
      [reflexivity | reflexivity | lia].
Defined.

(** C3.  [ErrWrongKey] and [ErrAllLoadsFailed] are two values, different
    under [==], with different messages; an error whose cause is
    [ErrAllLoadsFailed] gets the hint about a linked filesystem
    ([loadHelpText]), and one whose cause is [ErrWrongKey] gets no
    suggestion. *)
Theorem wrong_key_is_not_all_loads_failed {E : Env} :
  imports_initialised = true ->
  go_eq main.(ErrWrongKey) main.(ErrAllLoadsFailed) = false /\
  Error main.(ErrWrongKey) = "incorrect key provided" /\
  Error main.(ErrAllLoadsFailed) = "could not load any protectors" /\
  String.eqb (Error main.(ErrWrongKey)) (Error main.(ErrAllLoadsFailed)) = false /\
  main.(loadHelpText) =
    "You may need to mount a linked filesystem. Run with " +:+
    shortDisplay verboseFlag +:+ " for more information." /\
  (forall err : error,
      go_eq (errors.Cause err) main.(ErrAllLoadsFailed) = true ->
      getErrorSuggestions err = main.(loadHelpText)) /\
  (forall err : error,
      go_eq (errors.Cause err) main.(ErrWrongKey) = true ->
      getErrorSuggestions err = EmptyString).
Proof.
  intros Hi. split; [| split; [| split; [| split; [| split; [| split]]]]].
  - apply (topLevelErrors_distinct 6 9); [reflexivity | reflexivity | lia].
  - rewrite main_eq. reflexivity.
  - rewrite main_eq. reflexivity.
  - rewrite main_eq. reflexivity.
  - rewrite main_eq. reflexivity.
  - intros err H.
    rewrite (suggestions_go_eq err main.(ErrAllLoadsFailed)).
    + rewrite (suggestion_ErrAllLoadsFailed Hi). rewrite main_eq. reflexivity.
    + exact H.
  - intros err H.
    rewrite (suggestions_go_eq err main.(ErrWrongKey)).
    + apply (suggestion_ErrWrongKey Hi).
    + exact H.
Qed.

Lemma wrong_key_is_not_all_loads_failed_witness :
  @imports_initialised example_env = true /\
  @getErrorSuggestions example_env
    (fst (errors.Wrap (@main example_env).(ErrAllLoadsFailed) "unlock" 100%N)) =
  "You may need to mount a linked filesystem. Run with --verbose for more information." /\
  @getErrorSuggestions example_env
    (fst (errors.Wrap (@main example_env).(ErrWrongKey) "unlock" 100%N)) = EmptyString.
Proof.
  split; [reflexivity |].
  destruct (@wrong_key_is_not_all_loads_failed example_env eq_refl)
    as (_ & _ & _ & _ & _ & Hall & Hwrong).
  split.
  - rewrite Hall; reflexivity.
  - apply Hwrong. reflexivity.
Defined.

(** C4.  [getErrorSuggestions] depends on its argument through
    [errors.Cause] only: an error and its cause get the same suggestion,
    two errors whose causes are equal under [==] get the same suggestion,
    and an error whose cause equals none of the case expressions of the
    [switch] gets the empty string. *)
Theorem getErrorSuggestions_depends_on_cause {E : Env} :
  (forall err : error,
      getErrorSuggestions err = getErrorSuggestions (errors.Cause err)) /\
  (forall e1 e2 : error,
      go_eq (errors.Cause e1) (errors.Cause e2) = true ->
      getErrorSuggestions e1 = getErrorSuggestions e2) /\
  (forall err : error,
      (forall v : error, In v cases -> go_eq (errors.Cause err) v = false) ->
      getErrorSuggestions err = EmptyString).
Proof.
  split; [| split].
  - intros err. apply suggestions_go_eq.
    rewrite Cause_idempotent. apply go_eq_refl.
  - apply suggestions_go_eq.
  - intros err H. unfold getErrorSuggestions. cbv zeta.
    rewrite !H by (unfold cases, imports; simpl; tauto).
    reflexivity.
Qed.

Lemma getErrorSuggestions_depends_on_cause_witness :
  (go_eq (errors.Cause (withStack 31%N (withMessage 30%N (@main example_env).(ErrBadOwners) "setup")))
         (errors.Cause (@main example_env).(ErrBadOwners)) = true /\
   @getErrorSuggestions example_env
     (withStack 31%N (withMessage 30%N (@main example_env).(ErrBadOwners) "setup")) =
   @getErrorSuggestions example_env (@main example_env).(ErrBadOwners)) /\
  @getErrorSuggestions example_env (opaque "*os.PathError" 40%N "open /x: no such file or directory")
  = EmptyString.
Proof.
  destruct (@getErrorSuggestions_depends_on_cause example_env) as (_ & Hsame & Hnone).
  split; [split; [reflexivity |] |].
  - apply Hsame. reflexivity.
  - apply Hnone. intros v Hv.
    unfold cases, imports in Hv. simpl in Hv.
    repeat (destruct Hv as [<- | Hv]; [reflexivity |]). destruct Hv.
Defined.

(** C5.  A destructive operation without the force override fails with
    [ErrNoDesctructiveOps] (the gate is [destroy], modelled from the spec);
    that value differs from every other entry of the [var] block, and the
    suggestion for an error with this cause tells the user to use the force
    flag. *)
Theorem destructive_operation_needs_force {E : Env}
    (descriptor : string) (st : MetadataStore) :
  imports_initialised = true ->
  referenced descriptor st = true ->
  destroy false descriptor st = inl main.(ErrNoDesctructiveOps) /\
  (exists st', destroy true descriptor st = inr st') /\
  topLevelErrors !! 1%nat = Some main.(ErrNoDesctructiveOps) /\
  Error main.(ErrNoDesctructiveOps) = "operation would be destructive" /\
  (forall (i : nat) (e : error),
      topLevelErrors !! i = Some e -> i <> 1%nat ->
      go_eq main.(ErrNoDesctructiveOps) e = false) /\
  (forall err : error,
      go_eq (errors.Cause err) main.(ErrNoDesctructiveOps) = true ->
      getErrorSuggestions err =
      "Use " +:+ shortDisplay forceFlag +:+ " to automatically run destructive operations.").
Proof.
  intros Hi Href. split; [| split; [| split; [| split; [| split]]]].
  - unfold destroy. rewrite Href. reflexivity.
  - unfold destroy. rewrite andb_false_r. eexists. reflexivity.
  - reflexivity.
  - rewrite main_eq. reflexivity.
  - intros i e He Hne.
    apply (topLevelErrors_distinct 1 i); [reflexivity | exact He | congruence].
  - intros err H.
    rewrite (suggestions_go_eq err main.(ErrNoDesctructiveOps)).
    + apply (suggestion_ErrNoDesctructiveOps Hi).
    + exact H.
Qed.

Lemma destructive_operation_needs_force_witness :
  (@imports_initialised example_env = true /\
   referenced "p2" example_metadata = true) /\
  @destroy example_env false "p2" example_metadata =
    inl (@main example_env).(ErrNoDesctructiveOps) /\
  @getErrorSuggestions example_env (@main example_env).(ErrNoDesctructiveOps) =
    "Use --force to automatically run destructive operations.".
Proof.
  split; [split; reflexivity |].
  destruct (@destructive_operation_needs_force example_env "p2" example_metadata
              eq_refl eq_refl) as (Hgate & _ & _ & _ & _ & Hsugg).
  split.
  - exact Hgate.
  - apply Hsugg. reflexivity.
Defined.

(** C6.  [ErrPolicyUnlocked], [ErrNotEmptyDir] and [ErrBadOwners] are three
    values, pairwise different under [==] and with pairwise different
    messages, and the suggestion for [ErrNotEmptyDir] says that files cannot
    be encrypted in-place. *)
Theorem policy_creation_errors_are_distinct {E : Env} :
  imports_initialised = true ->
  (go_eq main.(ErrPolicyUnlocked) main.(ErrNotEmptyDir) = false /\
   go_eq main.(ErrPolicyUnlocked) main.(ErrBadOwners) = false /\
   go_eq main.(ErrNotEmptyDir) main.(ErrBadOwners) = false) /\
  (Error main.(ErrPolicyUnlocked) = "this file or directory is already unlocked" /\
   Error main.(ErrNotEmptyDir) = "not an empty directory" /\
   Error main.(ErrBadOwners) = "you do not own this directory") /\
  (forall err : error,
      go_eq (errors.Cause err) main.(ErrNotEmptyDir) = true ->
      getErrorSuggestions err =
        "Encryption can only be setup on empty directories; files" +:+ br +:+
        "cannot be encrypted in-place. Instead, encrypt an empty" +:+ br +:+
        "directory, copy the files into that encrypted directory," +:+ br +:+
        "and securely delete the originals with " +:+ dq +:+ "shred" +:+ dq +:+ "." /\
      has_run ["files"; "cannot"; "be"; "encrypted"; "in-place."]
        (Fields (getErrorSuggestions err)) = true).
Proof.
  intros Hi. split; [| split].
  - split; [| split].
    + apply (topLevelErrors_distinct 11 13); [reflexivity | reflexivity | lia].
    + apply (topLevelErrors_distinct 11 12); [reflexivity | reflexivity | lia].
    + apply (topLevelErrors_distinct 13 12); [reflexivity | reflexivity | lia].
  - rewrite main_eq. split; [| split]; reflexivity.
  - intros err H.
    rewrite (suggestions_go_eq err main.(ErrNotEmptyDir)) by exact H.
    rewrite (suggestion_ErrNotEmptyDir Hi).
    split; [reflexivity | vm_compute; reflexivity].
Qed.

Lemma policy_creation_errors_are_distinct_witness :
  @imports_initialised example_env = true /\
  Fields (@getErrorSuggestions example_env (@main example_env).(ErrNotEmptyDir)) =
  [ "Encryption"; "can"; "only"; "be"; "setup"; "on"; "empty"; "directories;";
    "files"; "cannot"; "be"; "encrypted"; "in-place."; "Instead,"; "encrypt";
    "an"; "empty"; "directory,"; "copy"; "the"; "files"; "into"; "that";
    "encrypted"; "directory,"; "and"; "securely"; "delete"; "the"; "originals";
    "with"; dq +:+ "shred" +:+ dq +:+ "." ].
Proof.
  split; [reflexivity |].
  destruct (@policy_creation_errors_are_distinct example_env eq_refl)
    as (_ & _ & Hsugg).
  destruct (Hsugg (@main example_env).(ErrNotEmptyDir) eq_refl) as [-> _].
  reflexivity.
Defined.

(** C8.  [failureExitCode] is 1.  Whenever [newExitError] returns, the error
    it returns has exit code 1, and it does return for a context whose
    application object is in the store; whenever [usageError.ExitCode]
    returns, it returns 1, and it does return for a usable context. *)
Theorem failures_exit_with_code_1 {E : Env}
    (c0 : cli.Context.t) (err : error) (u : usageError) (s : store) :
  failureExitCode = 1 /\
  (forall (ee : cli.ExitError.t) (s' : store),
      newExitError c0 err s = Some (ee, s') -> cli.ExitError.ExitCode ee = 1) /\
  (is_Some (apps s !! cli.Context.App c0) ->
   exists ee, newExitError c0 err s = Some (ee, s) /\ cli.ExitError.ExitCode ee = 1) /\
  (forall (z : Z) (s' : store),
      usageError_ExitCode u s = Some (z, s') -> z = 1) /\
  (usable (c u) s -> exists s', usageError_ExitCode u s = Some (1, s')).
Proof.
  split; [reflexivity |]. split; [| split; [| split]].
  - intros ee s' H. apply newExitError_inv in H as [H _]. exact H.
  - intros [app Happ]. apply (newExitError_run c0 err s app Happ).
  - intros z s' H. apply usageError_ExitCode_inv in H as [H _]. exact H.
  - intros [(app & sent & Happ & Hw) Hargs].
    destruct os_Args as [|arg0 args] eqn:Ha; [congruence |].
    destruct (usageError_ExitCode_run u s app sent arg0 args Happ Hw Ha)
      as (s' & Hrun & _).
    exists s'. exact Hrun.
Qed.

Lemma example_usable : @usable example_env example_context example_store.
Proof.
  split.
  - exists example_app, ("fscrypt: bad usage" +:+ nl). split; reflexivity.
  - discriminate.
Defined.

Lemma failures_exit_with_code_1_witness :
  (is_Some (apps example_store !! cli.Context.App example_context) /\
   @usable example_env example_context example_store) /\
  (exists ee,
      @newExitError example_env example_context (@main example_env).(ErrNotEmptyDir) example_store
      = Some (ee, example_store) /\ cli.ExitError.ExitCode ee = 1) /\
  (exists s',
      @usageError_ExitCode example_env (mkUsageError example_context "expected 1 argument, got 0")
        example_store = Some (1, s')).
Proof.
  assert (Hs : is_Some (apps example_store !! cli.Context.App example_context))
    by (exists example_app; reflexivity).
  split; [split; [exact Hs | exact example_usable] |].
  destruct (@failures_exit_with_code_1 example_env example_context
              (@main example_env).(ErrNotEmptyDir)
              (mkUsageError example_context "expected 1 argument, got 0")
              example_store) as (_ & _ & Hnew & _ & Hexit).
  split.
  - exact (Hnew Hs).
  - exact (Hexit example_usable).
Defined.

Lemma checkRequiredFlags_scan {E : Env}
    (c0 : cli.Context.t) (flags : list stringFlag) :
  (checkRequiredFlags c0 flags = None <->
   Forall (fun f => Value f <> EmptyString) flags) /\
  (forall u : usageError,
      checkRequiredFlags c0 flags = Some u ->
      exists (before : list stringFlag) (f : stringFlag) (after : list stringFlag),
        flags = (before ++ f :: after)%list /\
        Forall (fun f' => Value f' <> EmptyString) before /\
        Value f = EmptyString /\
        u = mkUsageError c0
              ("required flag " +:+ shortDisplay (stringFlag_flag f) +:+ " not provided")).
Proof.
  induction flags as [|f flags [IHnone IHsome]].
  - split.
    + split; [constructor | reflexivity].
    + intros u H. discriminate H.
  - simpl. destruct (String.eqb_spec (Value f) EmptyString) as [Hf | Hf].
    + split.
      * split; [discriminate |].
        intros H. inversion H; subst. contradiction.
      * intros u H. injection H as <-.
        exists [], f, flags. split; [reflexivity |].
        split; [constructor |]. split; [exact Hf | reflexivity].
    + split.
      * rewrite IHnone. split.
        -- intros H. constructor; assumption.
        -- intros H. inversion H; subst. assumption.
      * intros u H. destruct (IHsome u H) as (before & g & after & -> & Hb & Hg & ->).
        exists (f :: before), g, after. split; [reflexivity |].
        split; [constructor; assumption |]. split; [exact Hg | reflexivity].
Qed.


(** C9.  [checkRequiredFlags] returns nil exactly when every flag of the
    list has a nonempty [Value]; otherwise it returns a usage error for the
    given context whose message names the first flag, in list order, whose
    [Value] is empty. *)
Theorem checkRequiredFlags_reports_first_empty {E : Env}
    (c0 : cli.Context.t) (flags : list stringFlag) :
  (checkRequiredFlags c0 flags = None <->
   Forall (fun f => Value f <> EmptyString) flags) /\
  (forall u : usageError,
      checkRequiredFlags c0 flags = Some u ->
      exists (before : list stringFlag) (f : stringFlag) (after : list stringFlag),
        flags = (before ++ f :: after)%list /\
        Forall (fun f' => Value f' <> EmptyString) before /\
        Value f = EmptyString /\
        u = mkUsageError c0
              ("required flag " +:+ shortDisplay (stringFlag_flag f) +:+ " not provided")) /\
  (~ Forall (fun f => Value f <> EmptyString) flags ->
   exists u : usageError, checkRequiredFlags c0 flags = Some u).
Proof.
  destruct (checkRequiredFlags_scan c0 flags) as [Hnone Hsome].
  split; [exact Hnone |]. split; [exact Hsome |].
  intros Hnot. destruct (checkRequiredFlags c0 flags) as [u |].
  - exists u. reflexivity.
  - exfalso. apply Hnot. apply Hnone. reflexivity.
Qed.

Lemma checkRequiredFlags_reports_first_empty_witness :
  Forall (fun f => @Value example_env f <> EmptyString)
    [("protector", "abc"); ("key", "/etc/keyfile")] /\
  @checkRequiredFlags example_env example_context
    [("protector", "abc"); ("key", "/etc/keyfile")] = None.
Proof.
  assert (H : Forall (fun f => @Value example_env f <> EmptyString)
                [("protector", "abc"); ("key", "/etc/keyfile")])
    by (repeat constructor; discriminate).
  split; [exact H |].
  exact (proj2 (proj1 (@checkRequiredFlags_reports_first_empty example_env
                         example_context _)) H).
Defined.

Example checkRequiredFlags_names_first_empty :
  @checkRequiredFlags example_env example_context
    [("protector", "abc"); ("key", EmptyString); ("name", EmptyString)]
  = Some (mkUsageError example_context "required flag --key not provided").
Proof. reflexivity. Qed.

(** C10.  [usageError.ExitCode] leaves every application object as it found
    it, [Writer] included: whenever it returns, the [cli.App] objects of the
    store are unchanged.  For a usable context it returns, the help text was
    rendered for the application with its [Writer] set to a fresh buffer,
    the old writer received that text less its first line, the buffer is
    left empty, and no other stream was written to. *)
Theorem ExitCode_restores_the_writer {E : Env} (u : usageError) (s : store) :
  (forall (z : Z) (s' : store),
      usageError_ExitCode u s = Some (z, s') -> apps s' = apps s) /\
  (forall (app : cli.App.t) (sent arg0 : string) (args : list string),
      apps s !! cli.Context.App (c u) = Some app ->
      streams s !! cli.App.Writer app = Some sent ->
      os_Args = arg0 :: args ->
      let buf := fresh (dom (streams s)) in
      let rest := snd (bytes.cut "010"%char (helpText (c u) app buf arg0)) in
      exists s',
        usageError_ExitCode u s = Some (failureExitCode, s') /\
        apps s' = apps s /\
        apps s' !! cli.Context.App (c u) = Some app /\
        buf <> cli.App.Writer app /\
        streams s' !! cli.App.Writer app = Some (sent +:+ rest) /\
        streams s' !! buf = Some EmptyString /\
        (forall w, w <> buf -> w <> cli.App.Writer app ->
                   streams s' !! w = streams s !! w)).
Proof.
  split.
  - intros z s' H. apply usageError_ExitCode_inv in H as [_ H]. exact H.
  - intros app sent arg0 args Happ Hw Hargs buf rest.
    destruct (usageError_ExitCode_run u s app sent arg0 args Happ Hw Hargs)
      as (s' & Hrun & Hap & Hold & Hbuf & Hframe).
    exists s'. split; [exact Hrun |]. split; [exact Hap |].
    split; [rewrite Hap; exact Happ |].
    split.
    { intros Heq. fold buf in Hbuf. rewrite Heq in Hbuf.
      assert (Hnone : streams s !! buf = None)
        by (apply not_elem_of_dom; apply is_fresh).
      unfold buf in Hnone at 1. fold buf in Hnone. rewrite Heq in Hnone. congruence. }
    split; [exact Hold |]. split; [exact Hbuf | exact Hframe].
Qed.

Lemma ExitCode_restores_the_writer_witness :
  (apps example_store !! cli.Context.App example_context = Some example_app /\
   streams example_store !! cli.App.Writer example_app = Some ("fscrypt: bad usage" +:+ nl) /\
   @os_Args example_env = ["fscrypt"]) /\
  exists s',
    @usageError_ExitCode example_env (mkUsageError example_context "expected 1 argument, got 0")
      example_store = Some (1, s') /\
    apps s' = apps example_store /\
    streams s' !! 1%N =
      Some ("fscrypt: bad usage" +:+ nl +:+ "   fscrypt setup" +:+ nl).
Proof.
  split; [split; [reflexivity | split; reflexivity] |].
  destruct (proj2 (@ExitCode_restores_the_writer example_env
                     (mkUsageError example_context "expected 1 argument, got 0")
                     example_store)
              example_app ("fscrypt: bad usage" +:+ nl) "fscrypt" []
              eq_refl eq_refl eq_refl)
    as (s' & Hrun & Hap & _ & _ & Hold & _).
  exists s'. split; [exact Hrun |]. split; [exact Hap | exact Hold].
Defined.

(** C1, as amended.  The message of every top-level error value is a fixed
    text: a literal, except that [ErrKeyFileLength] holds
    [metadata.PolicyKeyLen] in decimal and [ErrMaxPassphrase] is printed by
    the [Error] method of [util.SystemError] from a literal.  Whatever error
    it is given, [getErrorSuggestions] returns one of fifteen texts, made of
    literals and of the display strings of the command line
    ([mountpointArg] and [shortDisplay] of five flags); nothing of the
    error's own text, and so no key or passphrase byte, enters them. *)
Theorem messages_are_fixed_texts {E : Env} :
  map Error topLevelErrors =
    [ "operation canceled";
      "operation would be destructive";
      util_SystemError_Error "max passphrase length exceeded";
      "invalid source type";
      "entered passphrases do not match";
      "multiple protectors available";
      "incorrect key provided";
      "no key file specified";
      "key file must be " +:+ pretty metadata_PolicyKeyLen +:+ " bytes";
      "could not load any protectors";
      "this command must be run as root";
      "this file or directory is already unlocked";
      "you do not own this directory";
      "not an empty directory";
      "protector does not use a passphrase";
      "unknown user" ] /\
  forall err : error,
    In (getErrorSuggestions err)
      [ "Run " +:+ dq +:+ "fscrypt setup " +:+ mountpointArg +:+ dq +:+
          " to use fscrypt on this filesystem.";
        "Encryption for this type of filesystem is not supported" +:+ br +:+
          "on this kernel version.";
        "Encryption is either disabled in the kernel config, or" +:+ br +:+
          "needs to be enabled for this filesystem. See the" +:+ br +:+
          "documentation on how to enable encryption on ext4" +:+ br +:+
          "systems (and the risks of doing so).";
        "Run " +:+ dq +:+ "sudo fscrypt setup" +:+ dq +:+ " to recreate the file.";
        "Run " +:+ dq +:+ "sudo fscrypt setup" +:+ dq +:+ " to create the file.";
        "This file or directory has either been encrypted with" +:+ br +:+
          "another tool (such as e4crypt) or the corresponding" +:+ br +:+
          "filesystem metadata has been deleted.";
        "The metadata for this encrypted directory is in an" +:+ br +:+
          "inconsistent state. This most likely means the filesystem" +:+ br +:+
          "metadata is corrupted.";
        "Use " +:+ shortDisplay nameFlag +:+ " to specify a protector name.";
        "Use " +:+ shortDisplay forceFlag +:+ " to automatically run destructive operations.";
        "Use " +:+ shortDisplay protectorFlag +:+ " to specify a protector.";
        "Use " +:+ shortDisplay keyFileFlag +:+ " to specify a key file.";
        "Encryption can only be setup on directories you own," +:+ br +:+
          "even if you have write permission for the directory.";
        "Encryption can only be setup on empty directories; files" +:+ br +:+
          "cannot be encrypted in-place. Instead, encrypt an empty" +:+ br +:+
          "directory, copy the files into that encrypted directory," +:+ br +:+
          "and securely delete the originals with " +:+ dq +:+ "shred" +:+ dq +:+ ".";
        "You may need to mount a linked filesystem. Run with " +:+
          shortDisplay verboseFlag +:+ " for more information.";
        EmptyString ].
Proof.
  split.
  - rewrite topLevelErrors_eq. reflexivity.
  - intros err. unfold getErrorSuggestions. cbv zeta.
    repeat match goal with
           | |- context [if go_eq ?a ?b then _ else _] => destruct (go_eq a b)
           end;
      cbn [In]; repeat first [left; reflexivity | right].
Qed.

(** C1, the counterexample.  With [metadata.PolicyKeyLen] and everything
    else the same, and only the display of the force flag different, the
    error values and their messages are the same and the suggestion for
    [ErrNoDesctructiveOps] differs: a suggestion holds a datum other than
    [metadata.PolicyKeyLen]. *)
Lemma suggestion_varies_with_flag_display :
  @metadata_PolicyKeyLen (example_env_with "force") =
    @metadata_PolicyKeyLen (example_env_with "yes") /\
  @topLevelErrors (example_env_with "force") = @topLevelErrors (example_env_with "yes") /\
  map (@Error (example_env_with "force")) (@topLevelErrors (example_env_with "force")) =
    map (@Error (example_env_with "yes")) (@topLevelErrors (example_env_with "yes")) /\
  @getErrorSuggestions (example_env_with "force")
    (@main (example_env_with "force")).(ErrNoDesctructiveOps) =
    "Use --force to automatically run destructive operations." /\
  @getErrorSuggestions (example_env_with "yes")
    (@main (example_env_with "yes")).(ErrNoDesctructiveOps) =
    "Use --yes to automatically run destructive operations.".
Proof.
  split; [reflexivity |]. split; [reflexivity |]. split; [reflexivity |].
  split; reflexivity.
Qed.

(** The message of [ErrKeyFileLength] states a length a key file must have:
    [metadata.PolicyKeyLen] bytes. *)
Theorem ErrKeyFileLength_states_a_length {E : Env} :
  topLevelErrors !! 8%nat = Some main.(ErrKeyFileLength) /\
  Error main.(ErrKeyFileLength) =
    "key file must be " +:+ pretty metadata_PolicyKeyLen +:+ " bytes".
Proof. split; [reflexivity |]. rewrite main_eq. reflexivity. Qed.

Example ErrKeyFileLength_message_64 :
  @Error example_env (@main example_env).(ErrKeyFileLength) = "key file must be 64 bytes".
Proof. reflexivity. Qed.

(** * Further properties of errors.go *)

(** ** Suggestions and wrapping *)

Lemma Cause_wrap_all (messages : list string) (err : error) (p : ptr) :
  errors.Cause (fst (wrap_all messages err p)) = errors.Cause err.
Proof.
  revert err p. induction messages as [|m messages IH]; intros err p.
  - reflexivity.
  - cbn [wrap_all]. unfold mbind, Alloc_bind.
    destruct (errors.Wrap err m p) as [err' p'] eqn:Hw.
    rewrite IH.
    unfold errors.Wrap, new, mbind, mret, Alloc_bind, Alloc_ret in Hw.
    injection Hw as <- _. reflexivity.
Qed.

(** X2.  However many times an error is wrapped by [errors.Wrap], and
    wherever the wrappers are allocated, [getErrorSuggestions] returns for it
    what it returns for the error itself; one wrapping puts its message and
    a colon before the error's text. *)
Theorem suggestion_survives_wrapping {E : Env}
    (messages : list string) (err : error) (p : ptr) :
  getErrorSuggestions (fst (wrap_all messages err p)) = getErrorSuggestions err /\
  (forall m : string,
      Error (fst (errors.Wrap err m p)) = m +:+ ": " +:+ Error err).
Proof.
  split.
  - apply suggestions_go_eq. rewrite Cause_wrap_all. apply go_eq_refl.
  - intros m. reflexivity.
Qed.

(** ** The switch, case by case *)

Lemma eqb_false (p q : N) : p <> q -> N.eqb p q = false.
Proof. apply N.eqb_neq. Qed.

Lemma main_vs_import {E : Env} (p : ptr) (msg : string) (x : error) :
  imports_initialised = true -> In x imports -> (heap0 <= p)%N ->
  go_eq (fundamental p msg) x = false.
Proof.
  intros Hi Hx Hp. apply fresh_not_earlier with (h := heap0); [| exact Hp].
  apply imports_earlier; assumption.
Qed.

(** Evaluate the [switch] at any pointer-valued variable of package main. *)
Ltac switch_at_main Hi :=
  unfold getErrorSuggestions; rewrite main_eq;
  cbn [errors.Cause ErrCanceled ErrNoDesctructiveOps ErrMaxPassphrase
       ErrInvalidSource ErrPassphraseMismatch ErrSpecifyProtector ErrWrongKey
       ErrSpecifyKeyFile ErrKeyFileLength ErrAllLoadsFailed ErrMustBeRoot
       ErrPolicyUnlocked ErrBadOwners ErrNotEmptyDir ErrNotPassphrase
       ErrUnknownUser loadHelpText];
  rewrite !(fun p m x Hx Hp => main_vs_import p m x Hi Hx Hp)
    by first [lia | unfold imports; simpl; tauto];
  cbn [go_eq];
  rewrite ?N.eqb_refl;
  rewrite ?eqb_false by lia;
  reflexivity.

(** X3.  Of the pointer-valued variables of the [var] block, the six that
    the [switch] names get each its own suggestion and the nine others get
    none; [ErrMaxPassphrase], a string value, gets none unless an imported
    case value equals it. *)
Theorem suggestions_of_package_errors {E : Env} :
  imports_initialised = true ->
  map getErrorSuggestions
    [ main.(ErrNoDesctructiveOps); main.(ErrSpecifyProtector);
      main.(ErrSpecifyKeyFile); main.(ErrBadOwners); main.(ErrNotEmptyDir);
      main.(ErrAllLoadsFailed) ] =
    [ "Use " +:+ shortDisplay forceFlag +:+ " to automatically run destructive operations.";
      "Use " +:+ shortDisplay protectorFlag +:+ " to specify a protector.";
      "Use " +:+ shortDisplay keyFileFlag +:+ " to specify a key file.";
      "Encryption can only be setup on directories you own," +:+ br +:+
        "even if you have write permission for the directory.";
      "Encryption can only be setup on empty directories; files" +:+ br +:+
        "cannot be encrypted in-place. Instead, encrypt an empty" +:+ br +:+
        "directory, copy the files into that encrypted directory," +:+ br +:+
        "and securely delete the originals with " +:+ dq +:+ "shred" +:+ dq +:+ ".";
      "You may need to mount a linked filesystem. Run with " +:+
        shortDisplay verboseFlag +:+ " for more information." ] /\
  Forall (fun e => getErrorSuggestions e = EmptyString)
    [ main.(ErrCanceled); main.(ErrInvalidSource); main.(ErrPassphraseMismatch);
      main.(ErrWrongKey); main.(ErrKeyFileLength); main.(ErrMustBeRoot);
      main.(ErrPolicyUnlocked); main.(ErrNotPassphrase); main.(ErrUnknownUser) ] /\
  ((forall x : error, In x imports -> go_eq main.(ErrMaxPassphrase) x = false) ->
   getErrorSuggestions main.(ErrMaxPassphrase) = EmptyString).
Proof.
  intros Hi. split; [| split].
  - cbn [map].
    repeat (apply (f_equal2 cons); [switch_at_main Hi |]). reflexivity.
  - repeat (apply Forall_cons; split; [switch_at_main Hi |]). apply Forall_nil. exact I.
  - intros Hm. unfold getErrorSuggestions. rewrite main_eq.
    cbn [errors.Cause ErrMaxPassphrase ErrNoDesctructiveOps ErrSpecifyProtector
         ErrSpecifyKeyFile ErrBadOwners ErrNotEmptyDir ErrAllLoadsFailed].
    rewrite main_eq in Hm. cbn [ErrMaxPassphrase] in Hm.
    rewrite !Hm by (unfold imports; simpl; tauto).
    reflexivity.
Qed.

Lemma suggestions_of_package_errors_witness :
  @imports_initialised example_env = true /\
  @getErrorSuggestions example_env (@main example_env).(ErrSpecifyKeyFile) =
    "Use --key to specify a key file." /\
  @getErrorSuggestions example_env (@main example_env).(ErrMustBeRoot) = EmptyString.
Proof.
  split; [reflexivity |].
  destruct (@suggestions_of_package_errors example_env eq_refl) as (Hsix & Hnine & _).
  split.
  - exact (f_equal (fun l => List.nth 2 l EmptyString) Hsix).
  - rewrite Forall_forall in Hnine. apply Hnine. apply list_elem_of_In. simpl. tauto.
Defined.

(** X4.  An error whose cause is [filesystem.ErrNotSetup], the first case,
    always gets the setup suggestion, which names [mountpointArg].  When no
    two of the eight imported case values are equal under [==], an error
    whose cause is one of them gets the text of that case: no case hides
    another. *)
Theorem suggestions_of_imported_errors {E : Env} :
  (forall err : error,
      go_eq (errors.Cause err) filesystem_ErrNotSetup = true ->
      getErrorSuggestions err =
        "Run " +:+ dq +:+ "fscrypt setup " +:+ mountpointArg +:+ dq +:+
        " to use fscrypt on this filesystem.") /\
  (pairwise_distinct imports = true ->
   forall err : error,
     (go_eq (errors.Cause err) metadata_ErrEncryptionNotSupported = true ->
      getErrorSuggestions err =
        "Encryption for this type of filesystem is not supported" +:+ br +:+
        "on this kernel version.") /\
     (go_eq (errors.Cause err) metadata_ErrEncryptionNotEnabled = true ->
      getErrorSuggestions err =
        "Encryption is either disabled in the kernel config, or" +:+ br +:+
        "needs to be enabled for this filesystem. See the" +:+ br +:+
        "documentation on how to enable encryption on ext4" +:+ br +:+
        "systems (and the risks of doing so).") /\
     (go_eq (errors.Cause err) actions_ErrBadConfigFile = true ->
      getErrorSuggestions err =
        "Run " +:+ dq +:+ "sudo fscrypt setup" +:+ dq +:+ " to recreate the file.") /\
     (go_eq (errors.Cause err) actions_ErrNoConfigFile = true ->
      getErrorSuggestions err =
        "Run " +:+ dq +:+ "sudo fscrypt setup" +:+ dq +:+ " to create the file.") /\
     (go_eq (errors.Cause err) actions_ErrMissingPolicyMetadata = true ->
      getErrorSuggestions err =
        "This file or directory has either been encrypted with" +:+ br +:+
        "another tool (such as e4crypt) or the corresponding" +:+ br +:+
        "filesystem metadata has been deleted.") /\
     (go_eq (errors.Cause err) actions_ErrPolicyMetadataMismatch = true ->
      getErrorSuggestions err =
        "The metadata for this encrypted directory is in an" +:+ br +:+
        "inconsistent state. This most likely means the filesystem" +:+ br +:+
        "metadata is corrupted.") /\
     (go_eq (errors.Cause err) actions_ErrMissingProtectorName = true ->
      getErrorSuggestions err =
        "Use " +:+ shortDisplay nameFlag +:+ " to specify a protector name.")).
Proof.
  split.
  - intros err H. unfold getErrorSuggestions. cbv zeta. rewrite H. reflexivity.
  - intros Hd err. unfold imports in Hd. cbn [pairwise_distinct forallb] in Hd.
    repeat match type of Hd with
           | _ && _ = true => apply andb_true_iff in Hd as [? Hd]
           end.
    repeat match goal with
           | H : _ && _ = true |- _ => apply andb_true_iff in H as [? ?]
           | H : negb _ = true |- _ => apply negb_true_iff in H
           end.
    repeat split; intros Hcause; unfold getErrorSuggestions; cbv zeta;
      rewrite !(go_eq_trans _ _ _ Hcause);
      repeat match goal with
             | Hne : go_eq ?a ?b = false |- context [go_eq ?b ?a] =>
                 rewrite (go_eq_sym b a), Hne
             end;
      rewrite go_eq_refl; reflexivity.
Qed.

Lemma suggestions_of_imported_errors_witness :
  pairwise_distinct (@imports example_env) = true /\
  @getErrorSuggestions example_env
    (fst (errors.Wrap (@actions_ErrNoConfigFile example_env) "loading config" 50%N)) =
  "Run " +:+ dq +:+ "sudo fscrypt setup" +:+ dq +:+ " to create the file.".
Proof.
  split; [reflexivity |].
  destruct (@suggestions_of_imported_errors example_env) as [_ H].
  destruct (H eq_refl
              (fst (errors.Wrap (@actions_ErrNoConfigFile example_env) "loading config" 50%N)))
    as (_ & _ & _ & Hno & _).
  apply Hno. reflexivity.
Defined.

(** ** Names and messages *)

(** X5.  [getFullName] returns the command's [HelpName] when that is not
    empty and the application's otherwise; it never changes the store, and
    it panics exactly when the command's [HelpName] is empty and the
    context's [App] pointer points to no application. *)
Theorem getFullName_reads_the_names (c0 : cli.Context.t) (s : store) :
  (getFullName c0 s = None <->
   cli.Command.HelpName (cli.Context.Command c0) = EmptyString /\
   apps s !! cli.Context.App c0 = None) /\
  (cli.Command.HelpName (cli.Context.Command c0) <> EmptyString ->
   getFullName c0 s = Some (cli.Command.HelpName (cli.Context.Command c0), s)) /\
  (forall app : cli.App.t,
      cli.Command.HelpName (cli.Context.Command c0) = EmptyString ->
      apps s !! cli.Context.App c0 = Some app ->
      getFullName c0 s = Some (cli.App.HelpName app, s)).
Proof.
  unfold getFullName.
  destruct (String.eqb_spec (cli.Command.HelpName (cli.Context.Command c0)) EmptyString)
    as [Hname | Hname]; cbn [negb].
  - unfold mbind, M_bind, load_app.
    destruct (apps s !! cli.Context.App c0) as [app |] eqn:Happ.
    + split; [| split].
      * split; [discriminate | intros [_ H]; discriminate H].
      * intros H. contradiction.
      * intros app' _ H. injection H as <-. reflexivity.
    + split; [| split].
      * split; [intros _; split; [exact Hname | reflexivity] | reflexivity].
      * intros H. contradiction.
      * intros app' _ H. discriminate H.
  - split; [| split].
    + split; [discriminate | intros [H _]; contradiction].
    + intros _. reflexivity.
    + intros app H. contradiction.
Qed.

Lemma getFullName_reads_the_names_witness :
  cli.Command.HelpName (cli.Context.Command example_context) <> EmptyString /\
  getFullName example_context example_store =
    Some ("fscrypt setup", example_store).
Proof.
  assert (H : cli.Command.HelpName (cli.Context.Command example_context) <> EmptyString)
    by discriminate.
  split; [exact H |].
  exact (proj1 (proj2 (getFullName_reads_the_names example_context example_store)) H).
Defined.

Lemma starts_with_append (p s : string) : starts_with p (p +:+ s) = true.
Proof.
  induction p as [|a p IH]; [reflexivity |].
  change (Ascii.eqb a a && starts_with p (p +:+ s) = true).
  rewrite Ascii.eqb_refl. exact IH.
Qed.

Lemma append_assoc (a b d : string) : (a +:+ b) +:+ d = a +:+ (b +:+ d).
Proof.
  induction a as [|x a IH]; [reflexivity |].
  change (String x ((a +:+ b) +:+ d) = String x (a +:+ (b +:+ d))).
  f_equal. exact IH.
Qed.

(** X6.  [newExitError] panics exactly when [getFullName] does and never
    changes the store.  The message it builds starts with the full name and
    a colon; the suggestion follows the wrapped error text after an empty
    line when there is one, and nothing follows when there is none. *)
Theorem newExitError_message {E : Env}
    (c0 : cli.Context.t) (err : error) (s : store) :
  (newExitError c0 err s = None <-> getFullName c0 s = None) /\
  (forall (name : string) (s1 : store),
      getFullName c0 s = Some (name, s1) ->
      exists ee : cli.ExitError.t,
        newExitError c0 err s = Some (ee, s) /\
        let prefix := name +:+ ": " in
        let text := wrapText (Error err) (utf8_RuneCountInString prefix) in
        starts_with prefix (cli.ExitError.Error ee) = true /\
        (getErrorSuggestions err = EmptyString ->
         cli.ExitError.Error ee = prefix +:+ text) /\
        (getErrorSuggestions err <> EmptyString ->
         cli.ExitError.Error ee =
           (prefix +:+ text) +:+ nl +:+ nl +:+ wrapText (getErrorSuggestions err) 0)).
Proof.
  split.
  - unfold newExitError, mbind, M_bind.
    destruct (getFullName c0 s) as [[name s1] |]; [| split; reflexivity].
    split; discriminate.
  - intros name s1 Hname.
    assert (s1 = s) as -> by (eapply getFullName_inv; exact Hname).
    unfold newExitError. erewrite bind_run; [| exact Hname].
    eexists. split; [reflexivity |].
    cbn [cli.ExitError.Error cli.ExitError.message cli.NewExitError].
    cbv zeta. split; [| split].
    + destruct (negb _); rewrite ?(append_assoc (name +:+ ": "));
        apply starts_with_append.
    + intros ->. reflexivity.
    + intros Hne. destruct (String.eqb_spec (getErrorSuggestions err) EmptyString);
        [contradiction | reflexivity].
Qed.

Lemma newExitError_message_witness :
  getFullName example_context example_store = Some ("fscrypt setup", example_store) /\
  exists ee : cli.ExitError.t,
    @newExitError example_env example_context (@main example_env).(ErrBadOwners) example_store
    = Some (ee, example_store) /\
    cli.ExitError.Error ee =
      "fscrypt setup: you do not own this directory" +:+ nl +:+ nl +:+
      "Encryption can only be setup on directories you own," +:+ br +:+
      "even if you have write permission for the directory.".
Proof.
  split; [reflexivity |].
  destruct (proj2 (@newExitError_message example_env example_context
                     (@main example_env).(ErrBadOwners) example_store)
              "fscrypt setup" example_store eq_refl)
    as (ee & Hrun & _ & _ & Hsome).
  exists ee. split; [exact Hrun |].
  rewrite Hsome; [reflexivity | discriminate].
Defined.

(** X7.  The text of a usage error is the full name, a colon and a space,
    and the message.  For the error [onUsageError] makes, the message is the
    text of the error handed in; for the one [expectedArgsErr] makes, it
    says how many arguments were expected, with the words at most when a
    smaller number would do, and how many were given.  Printing the text
    panics only when [getFullName] does, and never changes the store. *)
Theorem usage_error_texts {E : Env}
    (pluralize : Z -> string -> string) (NArg : cli.Context.t -> Z)
    (c0 : cli.Context.t) (s : store) :
  (forall u : usageError,
      usageError_Error u s = None <-> getFullName (c u) s = None) /\
  (forall (name : string) (s1 : store),
      getFullName c0 s = Some (name, s1) ->
      (forall msg : string,
          usageError_Error (mkUsageError c0 msg) s = Some (name +:+ ": " +:+ msg, s)) /\
      (forall err : error,
          usageError_Error (onUsageError c0 err) s =
            Some (name +:+ ": " +:+ Error err, s)) /\
      (forall (expectedArgs : Z) (atMost : bool),
          usageError_Error (expectedArgsErr pluralize NArg c0 expectedArgs atMost) s =
            Some (name +:+ ": expected " +:+
                  (if atMost then "at most " else EmptyString) +:+
                  pluralize expectedArgs "argument" +:+ ", got " +:+
                  pluralize (NArg c0) "argument", s))).
Proof.
  split.
  - intros u. unfold usageError_Error, mbind, M_bind.
    destruct (getFullName (c u) s) as [[name s1] |]; [| split; reflexivity].
    split; discriminate.
  - intros name s1 Hname.
    assert (s1 = s) as -> by (eapply getFullName_inv; exact Hname).
    assert (Hmsg : forall msg : string,
               usageError_Error (mkUsageError c0 msg) s =
                 Some (name +:+ ": " +:+ msg, s)).
    { intros msg. unfold usageError_Error. cbn [c message].
      erewrite bind_run; [| exact Hname].
      cbv [mret M_ret]. do 2 f_equal.
      cbn [fmt.Sprintf fmt.verb Ascii.eqb Bool.eqb].
      change (name +:+ String ":" (String " " (msg +:+ EmptyString)) =
              name +:+ String ":" (String " " msg)).
      rewrite append_empty_r. reflexivity. }
    split; [exact Hmsg |]. split.
    + intros err. apply Hmsg.
    + intros expectedArgs atMost. unfold expectedArgsErr. cbv zeta.
      rewrite Hmsg. do 2 f_equal.
      destruct atMost;
        cbn [fmt.Sprintf fmt.verb Ascii.eqb Bool.eqb];
        rewrite append_empty_r; reflexivity.
Qed.

Lemma usage_error_texts_witness :
  getFullName example_context example_store = Some ("fscrypt setup", example_store) /\
  @usageError_Error
    (@expectedArgsErr
       (fun n word => pretty n +:+ " " +:+ word +:+
                      (if Z.eqb n 1 then EmptyString else "s"))
       (fun _ => 3) example_context 1 true)
    example_store =
  Some ("fscrypt setup: expected at most 1 argument, got 3 arguments", example_store).
Proof.
  split; [reflexivity |].
  destruct (proj2 (@usage_error_texts example_env
                     (fun n word => pretty n +:+ " " +:+ word +:+
                                    (if Z.eqb n 1 then EmptyString else "s"))
                     (fun _ => 3) example_context example_store)
              "fscrypt setup" example_store eq_refl) as (_ & _ & H).
  rewrite H. reflexivity.
Defined.

(** ** The first line of the help *)

Lemma cut_splits (delim : ascii) (s : string) :
  s = (bytes.cut delim s).1 +:+ (bytes.cut delim s).2 /\
  (occurs delim s = false ->
   (bytes.cut delim s).1 = s /\ (bytes.cut delim s).2 = EmptyString) /\
  (occurs delim s = true ->
   exists l0 : string,
     (bytes.cut delim s).1 = l0 +:+ String delim EmptyString /\
     occurs delim l0 = false).
Proof.
  induction s as [|a s (IH1 & IH2 & IH3)].
  - split; [reflexivity |]. split; [intros _; split; reflexivity | discriminate].
  - cbn [bytes.cut occurs].
    destruct (Ascii.eqb_spec a delim) as [-> | Hne]; cbn [orb].
    + cbn [fst snd]. split; [reflexivity |]. split; [discriminate |].
      intros _. exists EmptyString. split; reflexivity.
    + destruct (bytes.cut delim s) as [line tail]. cbn [fst snd] in *.
      split; [| split].
      * change (String a s = String a (line +:+ tail)). f_equal. exact IH1.
      * intros H. destruct (IH2 H) as [-> ->]. split; reflexivity.
      * intros H. destruct (IH3 H) as (l0 & -> & Hl0).
        exists (String a l0). split; [reflexivity |].
        cbn [occurs]. destruct (Ascii.eqb_spec a delim); [contradiction |].
        exact Hl0.
Qed.

(** X8.  For a usable context, what [usageError.ExitCode] sends to the
    application's writer is the help text less its first line: the help is
    the dropped line followed by what was sent; the dropped line ends at the
    first line feed of the help and holds no other; and a help text without
    a line feed is dropped whole, the writer receiving nothing. *)
Theorem ExitCode_drops_the_first_line {E : Env} (u : usageError) (s : store)
    (app : cli.App.t) (sent arg0 : string) (args : list string) :
  apps s !! cli.Context.App (c u) = Some app ->
  streams s !! cli.App.Writer app = Some sent ->
  os_Args = arg0 :: args ->
  let help := helpText (c u) app (fresh (dom (streams s))) arg0 in
  exists (s' : store) (line rest : string),
    usageError_ExitCode u s = Some (failureExitCode, s') /\
    help = line +:+ rest /\
    streams s' !! cli.App.Writer app = Some (sent +:+ rest) /\
    (occurs "010"%char help = false ->
     rest = EmptyString /\ streams s' !! cli.App.Writer app = Some sent) /\
    (occurs "010"%char help = true ->
     exists l0 : string, line = l0 +:+ nl /\ occurs "010"%char l0 = false).
Proof.
  intros Happ Hw Hargs help.
  destruct (usageError_ExitCode_run u s app sent arg0 args Happ Hw Hargs)
    as (s' & Hrun & _ & Hold & _).
  fold help in Hold.
  destruct (cut_splits "010"%char help) as (Hsplit & Hnone & Hsome).
  exists s', (bytes.cut "010"%char help).1, (bytes.cut "010"%char help).2.
  split; [exact Hrun |]. split; [exact Hsplit |]. split; [exact Hold |].
  split.
  - intros H. destruct (Hnone H) as [_ Hrest]. split; [exact Hrest |].
    rewrite Hold, Hrest, append_empty_r. reflexivity.
  - exact Hsome.
Qed.

Lemma ExitCode_drops_the_first_line_witness :
  (apps example_store !! cli.Context.App example_context = Some example_app /\
   streams example_store !! cli.App.Writer example_app = Some ("fscrypt: bad usage" +:+ nl) /\
   @os_Args example_env = ["fscrypt"]) /\
  exists (s' : store) (line rest : string),
    @usageError_ExitCode example_env (mkUsageError example_context "bad flag") example_store
      = Some (1, s') /\
    "NAME:" +:+ nl +:+ "   fscrypt setup" +:+ nl = line +:+ rest /\
    streams s' !! 1%N = Some (("fscrypt: bad usage" +:+ nl) +:+ rest).
Proof.
  split; [split; [reflexivity | split; reflexivity] |].
  destruct (@ExitCode_drops_the_first_line example_env
              (mkUsageError example_context "bad flag") example_store
              example_app ("fscrypt: bad usage" +:+ nl) "fscrypt" []
              eq_refl eq_refl eq_refl)
    as (s' & line & rest & Hrun & Hhelp & Hold & _).
  exists s', line, rest. split; [exact Hrun |]. split; [exact Hhelp | exact Hold].
Defined.

(** X9.  [usageError.ExitCode] returns only for a context whose [App]
    pointer points to an application, in a process whose [os.Args] is not
    empty: it panics when the pointer points to nothing and when [os.Args]
    is empty. *)
Theorem ExitCode_panics {E : Env} (u : usageError) (s : store) :
  (apps s !! cli.Context.App (c u) = None -> usageError_ExitCode u s = None) /\
  (os_Args = [] -> usageError_ExitCode u s = None) /\
  (forall (z : Z) (s' : store),
      usageError_ExitCode u s = Some (z, s') ->
      is_Some (apps s !! cli.Context.App (c u)) /\ os_Args <> []).
Proof.
  assert (Hret : forall (z : Z) (s' : store),
             usageError_ExitCode u s = Some (z, s') ->
             is_Some (apps s !! cli.Context.App (c u)) /\ os_Args <> []).
  { intros z s' H. unfold usageError_ExitCode in H.
    apply bind_inv in H as (buf & s1 & H1 & H).
    unfold bytes.new_Buffer in H1. injection H1 as _ <-.
    apply bind_inv in H as (app & s2 & H2 & H).
    apply load_app_inv in H2 as [-> Happ]. cbn [apps] in Happ.
    apply bind_inv in H as (x3 & s3 & _ & H).
    apply bind_inv in H as (name & s4 & _ & H).
    apply bind_inv in H as (arg0 & s5 & H5 & _).
    split; [exists app; exact Happ |].
    unfold os_Args_0 in H5. intros Hnil. rewrite Hnil in H5. discriminate H5. }
  split; [| split; [| exact Hret]].
  - intros Hnone. destruct (usageError_ExitCode u s) as [[z s'] |] eqn:Hrun;
      [| reflexivity].
    destruct (Hret z s' eq_refl) as [[app Happ] _]. congruence.
  - intros Hnil. destruct (usageError_ExitCode u s) as [[z s'] |] eqn:Hrun;
      [| reflexivity].
    destruct (Hret z s' eq_refl) as [_ Hargs]. contradiction.
Qed.

Lemma ExitCode_panics_witness :
  apps example_store !! 7%N = None /\
  @usageError_ExitCode example_env
    (mkUsageError (cli.Context.mk 7%N (cli.Command.mk "setup" "fscrypt setup" EmptyString))
       "bad flag")
    example_store = None.
Proof.
  split; [reflexivity |].
  apply (proj1 (@ExitCode_panics example_env
                  (mkUsageError
                     (cli.Context.mk 7%N (cli.Command.mk "setup" "fscrypt setup" EmptyString))
                     "bad flag")
                  example_store)).
  reflexivity.
Defined.

(** ** Required flags over lists *)

(** X10.  Checking a list of flags followed by another reports the first
    list's failure when it has one and otherwise checks the second; so
    whether the check passes does not depend on the order of the flags,
    though the flag named in the error does. *)
Theorem checkRequiredFlags_over_lists {E : Env}
    (c0 : cli.Context.t) (flags1 flags2 : list stringFlag) :
  checkRequiredFlags c0 (flags1 ++ flags2)%list =
    match checkRequiredFlags c0 flags1 with
    | Some u => Some u
    | None => checkRequiredFlags c0 flags2
    end /\
  (flags1 ≡ₚ flags2 ->
   (checkRequiredFlags c0 flags1 = None <-> checkRequiredFlags c0 flags2 = None)).
Proof.
  split.
  - induction flags1 as [|f flags1 IH]; [reflexivity |].
    cbn [app checkRequiredFlags].
    destruct (String.eqb (Value f) EmptyString); [reflexivity | exact IH].
  - intros Hperm.
    rewrite (proj1 (checkRequiredFlags_scan c0 flags1)).
    rewrite (proj1 (checkRequiredFlags_scan c0 flags2)).
    rewrite Hperm. reflexivity.
Qed.

Lemma checkRequiredFlags_over_lists_witness :
  ([("key", EmptyString); ("name", EmptyString)] ≡ₚ
   [("name", EmptyString); ("key", EmptyString)]) /\
  @checkRequiredFlags example_env example_context
    [("key", EmptyString); ("name", EmptyString)] =
    Some (mkUsageError example_context "required flag --key not provided") /\
  @checkRequiredFlags example_env example_context
    [("name", EmptyString); ("key", EmptyString)] =
    Some (mkUsageError example_context "required flag --name not provided") /\
  (@checkRequiredFlags example_env example_context
     [("key", EmptyString); ("name", EmptyString)] = None <->
   @checkRequiredFlags example_env example_context
     [("name", EmptyString); ("key", EmptyString)] = None).
Proof.
  assert (Hp : [("key", EmptyString); ("name", EmptyString)] ≡ₚ
               [("name", EmptyString); ("key", EmptyString)])
    by apply perm_swap.
  split; [exact Hp |]. split; [reflexivity |]. split; [reflexivity |].
  exact (proj2 (@checkRequiredFlags_over_lists example_env example_context _ _) Hp).
Defined.

(** ** What a call of ExitCode keeps *)

(** X11.  A call of [usageError.ExitCode] in a usable store leaves it
    usable for the same context, so the method can be called again; every
    stream of the store is still there afterwards and holds what it held,
    followed by what the call sent to it. *)
Theorem ExitCode_keeps_the_store_usable {E : Env} (u : usageError) (s : store) :
  usable (c u) s ->
  exists s' : store,
    usageError_ExitCode u s = Some (failureExitCode, s') /\
    usable (c u) s' /\
    (forall (w : ptr) (held : string),
        streams s !! w = Some held ->
        exists more : string, streams s' !! w = Some (held +:+ more)).
Proof.
  intros [(app & sent & Happ & Hw) Hargs].
  destruct os_Args as [|arg0 args] eqn:Ha; [congruence |].
  destruct (usageError_ExitCode_run u s app sent arg0 args Happ Hw Ha)
    as (s' & Hrun & Hap & Hold & Hbuf & Hframe).
  exists s'. split; [exact Hrun |]. split.
  - split.
    + exists app. eexists. split; [rewrite Hap; exact Happ | exact Hold].
    + rewrite Ha. discriminate.
  - intros w held Hheld.
    destruct (decide (w = cli.App.Writer app)) as [-> | Hnw].
    + rewrite Hw in Hheld. injection Hheld as <-. eexists. exact Hold.
    + exists EmptyString. rewrite append_empty_r.
      rewrite Hframe; [exact Hheld | | exact Hnw].
      intros ->.
      assert (Hnone : streams s !! fresh (dom (streams s)) = None)
        by (apply not_elem_of_dom; apply is_fresh).
      congruence.
Qed.

Lemma ExitCode_keeps_the_store_usable_witness :
  @usable example_env example_context example_store /\
  exists s' : store,
    @usageError_ExitCode example_env (mkUsageError example_context "bad flag") example_store
      = Some (1, s') /\
    @usable example_env example_context s'.
Proof.
  split; [exact example_usable |].
  destruct (@ExitCode_keeps_the_store_usable example_env
              (mkUsageError example_context "bad flag") example_store example_usable)
    as (s' & Hrun & Huse & _).
  exists s'. split; [exact Hrun | exact Huse].
Defined.

(** ** Errors made after initialisation *)

(** X12.  The [switch] compares pointers, not messages: initialisation
    allocates fifteen objects, and an error made by [errors.New] or
    [errors.Errorf] afterwards gets no suggestion, whatever its message,
    even the message of a case value. *)
Theorem later_errors_get_no_suggestion {E : Env} (message : string) (p : ptr) :
  imports_initialised = true ->
  (snd (init heap0) <= p)%N ->
  snd (init heap0) = (heap0 + 15)%N /\
  getErrorSuggestions (fst (errors.New message p)) = EmptyString /\
  (forall (format : string) (args : list fmt.arg),
      getErrorSuggestions (fst (errors.Errorf format args p)) = EmptyString).
Proof.
  intros Hi Hp.
  assert (Hnext : snd (init heap0) = (heap0 + 15)%N).
  { cbv [init errors.New errors.Errorf new mbind mret Alloc_bind Alloc_ret snd]. lia. }
  rewrite Hnext in Hp.
  assert (Hany : forall msg : string,
             getErrorSuggestions (fundamental p msg) = EmptyString)
    by (intros msg; switch_at_main Hi).
  split; [exact Hnext |]. split; [apply Hany |].
  intros format args. apply Hany.
Qed.

Lemma later_errors_get_no_suggestion_witness :
  (@imports_initialised example_env = true /\
   (snd (@init example_env (@heap0 example_env)) <= 40)%N) /\
  @Error example_env (fst (errors.New "not an empty directory" 40%N)) =
    @Error example_env (@main example_env).(ErrNotEmptyDir) /\
  @getErrorSuggestions example_env (fst (errors.New "not an empty directory" 40%N)) =
    EmptyString.
Proof.
  assert (Hp : (snd (@init example_env (@heap0 example_env)) <= 40)%N)
    by (vm_compute; discriminate).
  split; [split; [reflexivity | exact Hp] |]. split; [reflexivity |].
  exact (proj1 (proj2 (@later_errors_get_no_suggestion example_env
                         "not an empty directory" 40%N eq_refl Hp))).
Defined.
